(** * Live Code Experiment MCP server: the tool dispatcher and its heuristics

    A shallow embedding of [mcp-server/src/index.ts]: the tool-call
    dispatcher ([setupToolHandlers]), the complexity heuristics
    ([performComplexityAnalysis], [estimateComplexity]), the pattern detector
    ([assessPatternApplicability], [detectOptimizationPatterns]) and the
    benchmark simulator ([benchmarkPerformance]).

    Conventions of the embedding.
    - A JavaScript string is the list of its UTF-16 code units ([jsstring]);
      [lit] turns an ASCII literal of the source into that list.
    - A regular expression literal is a term of [regex]; it is run by a
      backtracking matcher written with continuations, and [match_count]
      follows [String.prototype.match] with the [g] flag.
    - Array lengths and the counters built from them are [nat].  Every other
      JavaScript number is an exact rational ([number] = [Q]): rounding of
      IEEE doubles is not part of the model.
    - [throw] is an [Outcome]; the state a handler can observe or change
      (here: the random source) is threaded explicitly as a [World]. *)

From Stdlib Require Import List Bool Arith NArith ZArith QArith Qminmax.
From Stdlib Require Import String Ascii Lia Lqa.
From Stdlib Require Import Permutation Sorted.
Import ListNotations.

Set Implicit Arguments.
Close Scope Q_scope.
Open Scope nat_scope.

(** ** JavaScript strings *)

Module JS.

Definition jsstring := list N.

Definition lit (s : string) : jsstring :=
  map N_of_ascii (list_ascii_of_string s).

Arguments lit s%_string.

Fixpoint eqb (a b : jsstring) : bool :=
  match a, b with
  | [], [] => true
  | x :: a', y :: b' => N.eqb x y && eqb a' b'
  | _, _ => false
  end.

Fixpoint starts_with (p s : jsstring) : bool :=
  match p, s with
  | [], _ => true
  | c :: p', x :: s' => N.eqb x c && starts_with p' s'
  | _ :: _, [] => false
  end.

(** [String.prototype.includes]: does [sub] occur somewhere in [s]? *)
Fixpoint includes (s sub : jsstring) : bool :=
  starts_with sub s ||
  match s with
  | [] => false
  | _ :: s' => includes s' sub
  end.

(** The code units matched by [\s] (WhiteSpace and LineTerminator). *)
Definition is_space (c : N) : bool :=
  (N.eqb c 9 || N.eqb c 10 || N.eqb c 11 || N.eqb c 12 || N.eqb c 13
   || N.eqb c 32 || N.eqb c 160 || N.eqb c 5760
   || (N.leb 8192 c && N.leb c 8202)
   || N.eqb c 8232 || N.eqb c 8233 || N.eqb c 8239 || N.eqb c 8287
   || N.eqb c 12288 || N.eqb c 65279)%N.

End JS.

Import JS.

(** ** Regular expressions *)

Module Regex.

(** The fragment of the regular expression syntax the server uses.  A star
    is only ever applied to a class of single code units ([\s*], [[^}]*]). *)
Inductive regex : Type :=
| Empty
| Chr (c : N)
| ClassStar (p : N -> bool)
| Seq (r1 r2 : regex)
| Alt (r1 r2 : regex).

Fixpoint str (l : jsstring) : regex :=
  match l with
  | [] => Empty
  | c :: l' => Seq (Chr c) (str l')
  end.

(** A continuation receives the unread input and the index reached, and
    answers with the end index of a successful match. *)
Definition cont := jsstring -> nat -> option nat.

(** Greedy repetition: take one more code unit of the class if that leads
    to a match, otherwise hand over to the continuation. *)
Fixpoint star_class (p : N -> bool) (s : jsstring) (i : nat) (k : cont)
  : option nat :=
  match s with
  | x :: s' =>
      if p x then
        match star_class p s' (S i) k with
        | Some e => Some e
        | None => k s i
        end
      else k s i
  | [] => k s i
  end.

Fixpoint run (r : regex) (s : jsstring) (i : nat) (k : cont) : option nat :=
  match r with
  | Empty => k s i
  | Chr c =>
      match s with
      | x :: s' => if N.eqb x c then k s' (S i) else None
      | [] => None
      end
  | ClassStar p => star_class p s i k
  | Seq r1 r2 => run r1 s i (fun s' j => run r2 s' j k)
  | Alt r1 r2 =>
      match run r1 s i k with
      | Some e => Some e
      | None => run r2 s i k
      end
  end.

(** Length of the match of [r] anchored at the start of [s], if any. *)
Definition exec (r : regex) (s : jsstring) : option nat :=
  run r s 0 (fun _ j => Some j).

(** [(s.match(/r/g) || []).length].  The scan restarts where the previous
    match ended ([skip] counts the code units of it still to pass); after an
    empty match it moves on by one. *)
Fixpoint scan (r : regex) (s : jsstring) (skip : nat) : nat :=
  match skip, s with
  | S n, _ :: s' => scan r s' n
  | S _, [] => 0
  | O, [] => match exec r [] with Some _ => 1 | None => 0 end
  | O, _ :: s' =>
      match exec r s with
      | Some n => S (scan r s' (pred n))
      | None => scan r s' 0
      end
  end.

Definition match_count (r : regex) (s : jsstring) : nat := scan r s 0.

End Regex.

Import Regex.

(** ** The complexity heuristics *)

Definition not_close_brace (c : N) : bool := negb (N.eqb c 125).

(** [for\s*\(] *)
Definition for_header : regex :=
  Seq (str (lit "for")) (Seq (ClassStar is_space) (Chr 40%N)).

(** [while\s*\(] *)
Definition while_header : regex :=
  Seq (str (lit "while")) (Seq (ClassStar is_space) (Chr 40%N)).

(** [/for\s*\(|while\s*\(/g] *)
Definition loop_regex : regex := Alt for_header while_header.

(** [/for\s*\([^}]*for\s*\(/g] *)
Definition nested_regex : regex :=
  Seq for_header (Seq (ClassStar not_close_brace) for_header).

Definition O_1 : jsstring := lit "O(1)".
Definition O_n : jsstring := lit "O(n)".
(** ["O(n²)"]: the superscript two is the code unit U+00B2. *)
Definition O_n2 : jsstring := lit "O(n" ++ [178%N] ++ lit ")".

Record ComplexityResult : Type := {
  time_complexity : jsstring;
  space_complexity : jsstring;
  loop_count : nat;
  nested_loops : nat;
  recursive_calls : nat;
  complexity_score : nat
}.

Definition performComplexityAnalysis (code language : jsstring)
  : ComplexityResult :=
  let loopCount := match_count loop_regex code in
  let nestedLoops := match_count nested_regex code in
  let recursiveCall :=
    if includes code (lit "return") && includes code (lit "(") then 1 else 0 in
  let timeComplexity :=
    if 0 <? nestedLoops then O_n2
    else if 0 <? loopCount then O_n
    else if 0 <? recursiveCall then O_n
    else O_1 in
  {| time_complexity := timeComplexity;
     space_complexity := if 0 <? nestedLoops then O_n else O_1;
     loop_count := loopCount;
     nested_loops := nestedLoops;
     recursive_calls := recursiveCall;
     complexity_score := loopCount + nestedLoops * 2 + recursiveCall |}.

Definition estimateComplexity (code : jsstring) : nat :=
  let loopCount := match_count loop_regex code in
  let nestedLoops := match_count nested_regex code in
  1 + loopCount + nestedLoops * 2.


(** ** Numbers *)

Definition number := Q.

Definition of_nat (n : nat) : number := inject_Z (Z.of_nat n).

(** [Math.max] on two arguments. *)
Definition Math_max (a b : number) : number := Qmax a b.

(** [a > b] *)
Definition gt (a b : number) : bool := negb (Qle_bool a b).

(** ** Exceptions and effects *)

(** [ErrorCode] of the MCP SDK. *)
Inductive ErrorCode : Type :=
| ConnectionClosed
| RequestTimeout
| ParseError
| InvalidRequest
| MethodNotFound
| InvalidParams
| InternalError.

(** What a [throw] can carry, as far as the [catch] block of the dispatcher
    tells values apart: an [McpError] with the code and message it was built
    from, another [Error] with its [message], or any other value with the
    text [String(error)] gives for it. *)
Inductive Thrown : Type :=
| ThrownMcpError (code : ErrorCode) (message : jsstring)
| ThrownError (message : jsstring)
| ThrownValue (rendering : jsstring).

Inductive Outcome (A : Type) : Type :=
| Return (a : A)
| Throw (e : Thrown).

Arguments Return {A} a.
Arguments Throw {A} e.

(** The message V8 gives the [TypeError] of [Array.prototype.reduce] on an
    empty array without an initial value. *)
Definition reduce_of_empty_array : jsstring :=
  lit "Reduce of empty array with no initial value".

(** [Array.prototype.reduce] called without an initial value. *)
Definition reduce {A : Type} (f : A -> A -> A) (l : list A) : Outcome A :=
  match l with
  | [] => Throw (ThrownError reduce_of_empty_array)
  | x :: xs => Return (fold_left f xs x)
  end.

(** [Array.prototype.map] with a callback that reads and changes the state. *)
Fixpoint map_st {S A B : Type} (f : A -> S -> B * S) (l : list A) (w : S)
  : list B * S :=
  match l with
  | [] => ([], w)
  | x :: xs =>
      let '(y, w1) := f x w in
      let '(ys, w2) := map_st f xs w1 in
      (y :: ys, w2)
  end.

(** A tool response: text blocks.  The [text] of a block is the JSON
    serialization of an object; the model keeps the object. *)
Module TextContent.
Record t (P : Type) : Type := { type : jsstring; text : P }.
End TextContent.

Module ToolResponse.
Record t (P : Type) : Type := { content : list (TextContent.t P) }.
End ToolResponse.

Definition text_response {P : Type} (payload : P) : ToolResponse.t P :=
  {| ToolResponse.content :=
       [ {| TextContent.type := lit "text"; TextContent.text := payload |} ] |}.

(** ** The tool registry *)

Module ToolDefinition.
(** Of the input schema, the list of required properties is kept. *)
Record t : Type := {
  name : jsstring;
  description : jsstring;
  required : list jsstring
}.
End ToolDefinition.

(** The answer to [ListToolsRequestSchema]. *)
Definition tools : list ToolDefinition.t :=
  [ {| ToolDefinition.name := lit "analyze_code_complexity";
       ToolDefinition.description :=
         lit "Analyze algorithmic complexity and performance characteristics of code";
       ToolDefinition.required :=
         [lit "code"; lit "language"; lit "optimization_target"] |};
    {| ToolDefinition.name := lit "benchmark_performance";
       ToolDefinition.description :=
         lit "Compare performance between original and optimized code variants";
       ToolDefinition.required :=
         [lit "original_code"; lit "optimized_variants"; lit "language"] |};
    {| ToolDefinition.name := lit "detect_optimization_patterns";
       ToolDefinition.description :=
         lit "Detect applicable optimization patterns in code";
       ToolDefinition.required := [lit "code_snippet"; lit "language"] |};
    {| ToolDefinition.name := lit "generate_test_cases";
       ToolDefinition.description :=
         lit "Generate comprehensive test cases for code optimization validation";
       ToolDefinition.required := [lit "function_signature"; lit "language"] |};
    {| ToolDefinition.name := lit "create_optimization_report";
       ToolDefinition.description :=
         lit "Generate comprehensive optimization analysis report";
       ToolDefinition.required := [lit "experiment_data"] |} ].

Definition tool_names : list jsstring := map ToolDefinition.name tools.

(** ** The dispatcher *)

Section Dispatcher.

(** [W] is whatever the handlers can observe or change, [Args] the
    [arguments] of a request (the casts of the source leave the value as it
    is), [Resp] what a handler returns. *)
Variables W Args Resp : Type.

Definition Handler : Type := Args -> W -> W * Outcome Resp.

Variables analyzeCodeComplexity benchmarkPerformance
          detectOptimizationPatterns generateTestCases
          createOptimizationReport : Handler.

(** The [case] of the [switch] a tool name selects, if any. *)
Definition handlerFor (name : jsstring) : option Handler :=
  if JS.eqb name (lit "analyze_code_complexity") then
    Some analyzeCodeComplexity
  else if JS.eqb name (lit "benchmark_performance") then
    Some benchmarkPerformance
  else if JS.eqb name (lit "detect_optimization_patterns") then
    Some detectOptimizationPatterns
  else if JS.eqb name (lit "generate_test_cases") then
    Some generateTestCases
  else if JS.eqb name (lit "create_optimization_report") then
    Some createOptimizationReport
  else None.

(** The body of the [try] block: the selected handler is run on the
    arguments, the [default] case throws. *)
Definition dispatch (name : jsstring) : Handler :=
  fun args w =>
    match handlerFor name with
    | Some handler => handler args w
    | None =>
        (w, Throw (ThrownMcpError MethodNotFound
                     (lit "Tool " ++ name ++ lit " not found")))
    end.

(** [error instanceof Error ? error.message : String(error)] *)
Definition error_text (e : Thrown) : jsstring :=
  match e with
  | ThrownMcpError _ m => m
  | ThrownError m => m
  | ThrownValue r => r
  end.

(** The [catch] block. *)
Definition rethrow (name : jsstring) (e : Thrown) : Thrown :=
  match e with
  | ThrownMcpError _ _ => e
  | _ => ThrownMcpError InternalError
           (lit "Error executing tool " ++ name ++ lit ": " ++ error_text e)
  end.

(** The handler registered for [CallToolRequestSchema]. *)
Definition callTool (name : jsstring) : Handler :=
  fun args w =>
    match dispatch name args w with
    | (w', Return r) => (w', Return r)
    | (w', Throw e) => (w', Throw (rethrow name e))
    end.

End Dispatcher.

(** The state the handlers share is the random source: [draws] counts the
    calls of [Math.random] so far. *)
Record World : Type := { draws : nat }.

(** ** The pattern detector *)

Module Applicability.
Record t : Type := {
  score : number;
  difficulty : jsstring;
  estimatedImprovement : number;
  indicators : list jsstring;
  hint : jsstring
}.
End Applicability.

Definition assessPatternApplicability (code pattern language : jsstring)
  : Applicability.t :=
  if JS.eqb pattern (lit "dynamic_programming") then
    let hasRecursion := includes code (lit "return") && includes code (lit "(") in
    let hasOverlapping := includes code (lit "memo") || hasRecursion in
    {| Applicability.score := if hasOverlapping then 0.8%Q else 0.2%Q;
       Applicability.difficulty := lit "medium";
       Applicability.estimatedImprovement := 40%Q;
       Applicability.indicators :=
         if hasOverlapping
         then [lit "recursion"; lit "overlapping_subproblems"] else [];
       Applicability.hint :=
         lit "Look for overlapping subproblems and optimal substructure" |}
  else if JS.eqb pattern (lit "caching") then
    let hasLookups := includes code (lit "find") || includes code (lit "indexOf") in
    {| Applicability.score := if hasLookups then 0.9%Q else 0.3%Q;
       Applicability.difficulty := lit "low";
       Applicability.estimatedImprovement := 60%Q;
       Applicability.indicators :=
         if hasLookups then [lit "repeated_lookups"] else [];
       Applicability.hint := lit "Cache frequently accessed data" |}
  else
    {| Applicability.score := 0.5%Q;
       Applicability.difficulty := lit "medium";
       Applicability.estimatedImprovement := 25%Q;
       Applicability.indicators := [];
       Applicability.hint := lit "Pattern analysis available" |}.

Module OptimizationPatternRequest.
Record t : Type := {
  code_snippet : jsstring;
  language : jsstring;
  pattern_types : option (list jsstring)
}.
End OptimizationPatternRequest.

Module PatternResult.
Record t : Type := {
  pattern_name : jsstring;
  applicability_score : number;
  implementation_difficulty : jsstring;
  estimated_improvement : number;
  code_indicators : list jsstring;
  implementation_hint : jsstring
}.
End PatternResult.

(** An entry of [pattern_recommendations].  Its two sentences are kept as
    the values they are formatted from ([toFixed] is not modelled). *)
Module Recommendation.
Record t : Type := {
  pattern : jsstring;
  reason_percentage : number;
  reason_difficulty : jsstring;
  estimated_benefit : number
}.
End Recommendation.

Module PatternReport.
Record t : Type := {
  analysis_timestamp : jsstring;
  language : jsstring;
  code_length : nat;
  detected_patterns : list PatternResult.t;
  pattern_recommendations : list Recommendation.t;
  mcp_server_confidence : jsstring
}.
End PatternReport.

Definition default_pattern_types : list jsstring :=
  [lit "dynamic_programming"; lit "caching"; lit "two_pointers";
   lit "sliding_window"; lit "hash_maps"].

Definition patternResult (code_snippet language pattern : jsstring)
  : PatternResult.t :=
  let applicability := assessPatternApplicability code_snippet pattern language in
  {| PatternResult.pattern_name := pattern;
     PatternResult.applicability_score := Applicability.score applicability;
     PatternResult.implementation_difficulty :=
       Applicability.difficulty applicability;
     PatternResult.estimated_improvement :=
       Applicability.estimatedImprovement applicability;
     PatternResult.code_indicators := Applicability.indicators applicability;
     PatternResult.implementation_hint := Applicability.hint applicability |}.

(** [Array.prototype.sort] with a comparator: a stable sort.  [cmp a b > 0]
    is what puts [b] before [a]. *)
Section Sort.
Variable A : Type.
Variable cmp : A -> A -> number.

Fixpoint insert (x : A) (l : list A) : list A :=
  match l with
  | [] => [x]
  | y :: l' => if gt (cmp x y) 0%Q then y :: insert x l' else x :: l
  end.

Definition sort (l : list A) : list A := fold_right insert [] l.
End Sort.

Definition byScoreDescending (a b : PatternResult.t) : number :=
  (PatternResult.applicability_score b - PatternResult.applicability_score a)%Q.

Definition recommendation (p : PatternResult.t) : Recommendation.t :=
  {| Recommendation.pattern := PatternResult.pattern_name p;
     Recommendation.reason_percentage :=
       (PatternResult.applicability_score p * 100)%Q;
     Recommendation.reason_difficulty :=
       PatternResult.implementation_difficulty p;
     Recommendation.estimated_benefit := PatternResult.estimated_improvement p |}.

(** The array the handler builds first: one result per requested pattern,
    those scoring above 0.3 kept. *)
Definition detectedPatterns (code_snippet language : jsstring)
    (pattern_types : list jsstring) : list PatternResult.t :=
  filter (fun p => gt (PatternResult.applicability_score p) 0.3%Q)
         (map (patternResult code_snippet language) pattern_types).

(** [sort] works in place, and the array is serialized after the response
    object is built: [detected_patterns] shows the sorted array. *)
Definition detectOptimizationPatterns (now : jsstring)
    (request : OptimizationPatternRequest.t) (w : World)
  : World * Outcome (ToolResponse.t PatternReport.t) :=
  let code_snippet := OptimizationPatternRequest.code_snippet request in
  let language := OptimizationPatternRequest.language request in
  let pattern_types :=
    match OptimizationPatternRequest.pattern_types request with
    | Some l => l
    | None => default_pattern_types
    end in
  let sorted :=
    sort byScoreDescending (detectedPatterns code_snippet language pattern_types) in
  (w, Return (text_response
    {| PatternReport.analysis_timestamp := now;
       PatternReport.language := language;
       PatternReport.code_length := List.length code_snippet;
       PatternReport.detected_patterns := sorted;
       PatternReport.pattern_recommendations :=
         map recommendation (firstn 3 sorted);
       PatternReport.mcp_server_confidence :=
         if 0 <? List.length sorted then lit "high" else lit "medium" |})).

(** ** The benchmark simulator *)

Module CodeVariant.
Record t : Type := {
  name : jsstring;
  code : jsstring;
  description : jsstring
}.
End CodeVariant.

Module PerformanceBenchmarkRequest.
Record t : Type := {
  original_code : jsstring;
  optimized_variants : list CodeVariant.t;
  language : jsstring;
  test_iterations : option number
}.
End PerformanceBenchmarkRequest.

Module BenchmarkResult.
Record t : Type := {
  variant_name : jsstring;
  variant_description : jsstring;
  execution_time_ms : number;
  memory_usage_mb : number;
  improvement_percentage : number;
  complexity_score : nat;
  test_iterations : number;
  benchmark_quality : jsstring
}.
End BenchmarkResult.

Module PerformanceSummary.
Record t : Type := {
  total_variants_tested : nat;
  average_improvement : number;
  best_improvement : number;
  mcp_server_analysis : bool
}.
End PerformanceSummary.

Module BenchmarkReport.
Record t : Type := {
  benchmark_timestamp : jsstring;
  language : jsstring;
  test_iterations : number;
  original_code_complexity : nat;
  variant_results : list BenchmarkResult.t;
  best_variant : BenchmarkResult.t;
  performance_summary : PerformanceSummary.t
}.
End BenchmarkReport.

Section Benchmark.

(** [random n] is what the call number [n] of [Math.random] returns. *)
Variable random : nat -> number.
(** The reading of the clock. *)
Variable now : jsstring.

Definition Math_random (w : World) : number * World :=
  (random (draws w), {| draws := S (draws w) |}).

Definition improvementFactor (original_code variant_code : jsstring) : number :=
  let baselineComplexity := estimateComplexity original_code in
  let variantComplexity := estimateComplexity variant_code in
  (of_nat baselineComplexity / Math_max (of_nat variantComplexity) 0.1)%Q.

(** The callback of [optimized_variants.map]. *)
Definition benchmarkVariant (original_code : jsstring)
    (test_iterations : number) (variant : CodeVariant.t) (w : World)
  : BenchmarkResult.t * World :=
  let variantComplexity := estimateComplexity (CodeVariant.code variant) in
  let factor := improvementFactor original_code (CodeVariant.code variant) in
  let '(u, w') := Math_random w in
  let simulatedExecutionTime := ((1 / factor) * (0.8 + u * 0.4))%Q in
  let memoryImprovement := Math_max 0%Q ((factor - 1) * 30)%Q in
  ({| BenchmarkResult.variant_name := CodeVariant.name variant;
      BenchmarkResult.variant_description := CodeVariant.description variant;
      BenchmarkResult.execution_time_ms := simulatedExecutionTime;
      BenchmarkResult.memory_usage_mb :=
        Math_max 0.5%Q (10 - memoryImprovement)%Q;
      BenchmarkResult.improvement_percentage :=
        Math_max (-20)%Q ((1 - simulatedExecutionTime) * 100)%Q;
      BenchmarkResult.complexity_score := variantComplexity;
      BenchmarkResult.test_iterations := test_iterations;
      BenchmarkResult.benchmark_quality := lit "mcp_server_simulated" |},
   w').

Definition benchmarkResults (original_code : jsstring)
    (test_iterations : number) (variants : list CodeVariant.t) (w : World)
  : list BenchmarkResult.t * World :=
  map_st (benchmarkVariant original_code test_iterations) variants w.

(** The callback of the [reduce] that picks the best variant. *)
Definition better (best current : BenchmarkResult.t) : BenchmarkResult.t :=
  if gt (BenchmarkResult.improvement_percentage current)
        (BenchmarkResult.improvement_percentage best)
  then current else best.

Definition benchmarkPerformance (request : PerformanceBenchmarkRequest.t)
    (w : World) : World * Outcome (ToolResponse.t BenchmarkReport.t) :=
  let original_code := PerformanceBenchmarkRequest.original_code request in
  let optimized_variants :=
    PerformanceBenchmarkRequest.optimized_variants request in
  let language := PerformanceBenchmarkRequest.language request in
  let test_iterations :=
    match PerformanceBenchmarkRequest.test_iterations request with
    | Some n => n
    | None => 1000%Q
    end in
  let '(results, w') :=
    benchmarkResults original_code test_iterations optimized_variants w in
  match reduce better results with
  | Throw e => (w', Throw e)
  | Return bestVariant =>
      (w', Return (text_response
        {| BenchmarkReport.benchmark_timestamp := now;
           BenchmarkReport.language := language;
           BenchmarkReport.test_iterations := test_iterations;
           BenchmarkReport.original_code_complexity :=
             estimateComplexity original_code;
           BenchmarkReport.variant_results := results;
           BenchmarkReport.best_variant := bestVariant;
           BenchmarkReport.performance_summary :=
             {| PerformanceSummary.total_variants_tested :=
                  List.length optimized_variants;
                PerformanceSummary.average_improvement :=
                  (fold_left
                     (fun sum r =>
                        (sum + BenchmarkResult.improvement_percentage r)%Q)
                     results 0%Q
                   / of_nat (List.length results))%Q;
                PerformanceSummary.best_improvement :=
                  BenchmarkResult.improvement_percentage bestVariant;
                PerformanceSummary.mcp_server_analysis := true |} |}))
  end.

End Benchmark.

(** ** The complexity analysis tool *)

(** [s.match(/r/)] without the [g] flag, read as a truth value: is there a
    match of [r] starting somewhere in [s]? *)
Fixpoint search (r : regex) (s : jsstring) : bool :=
  match exec r s with
  | Some _ => true
  | None =>
      match s with
      | [] => false
      | _ :: s' => search r s'
      end
  end.

(** The code units [.] matches: all but the line terminators. *)
Definition not_line_terminator (c : N) : bool :=
  negb (N.eqb c 10 || N.eqb c 13 || N.eqb c 8232 || N.eqb c 8233).

(** [/while.*<.*length/] *)
Definition two_pointers_regex : regex :=
  Seq (str (lit "while"))
      (Seq (ClassStar not_line_terminator)
           (Seq (Chr 60%N)
                (Seq (ClassStar not_line_terminator) (str (lit "length"))))).

Module Opportunity.
Record t : Type := {
  type : jsstring;
  description : jsstring;
  impact : jsstring;
  effort : jsstring
}.
End Opportunity.

Definition algorithm_optimization : Opportunity.t :=
  {| Opportunity.type := lit "algorithm_optimization";
     Opportunity.description :=
       lit "Consider using specialized sorting algorithms for specific data types";
     Opportunity.impact := lit "medium";
     Opportunity.effort := lit "low" |}.

Definition loop_optimization : Opportunity.t :=
  {| Opportunity.type := lit "loop_optimization";
     Opportunity.description :=
       lit "Multiple loops detected - consider loop fusion or vectorization";
     Opportunity.impact := lit "high";
     Opportunity.effort := lit "medium" |}.

Definition data_structure : Opportunity.t :=
  {| Opportunity.type := lit "data_structure";
     Opportunity.description :=
       lit "Replace linear search with hash-based lookup";
     Opportunity.impact := lit "high";
     Opportunity.effort := lit "low" |}.

(** The three [if] statements push in this order. *)
Definition identifyOptimizationOpportunities (code language target : jsstring)
  : list Opportunity.t :=
  (if includes code (lit "sort(") && JS.eqb target (lit "performance")
   then [algorithm_optimization] else [])
  ++ (if 1 <? match_count for_header code then [loop_optimization] else [])
  ++ (if includes code (lit "indexOf") || includes code (lit "find(")
      then [data_structure] else []).

Definition detectPatterns (code language : jsstring) : list jsstring :=
  (if includes code (lit "memo") || includes code (lit "cache")
   then [lit "memoization"] else [])
  ++ (if includes code (lit "dp[") || includes code (lit "table[")
      then [lit "dynamic_programming"] else [])
  ++ (if search two_pointers_regex code then [lit "two_pointers"] else []).

(** [{ high: 3, medium: 2, low: 1 }[key]]; [None] when the lookup gives no
    number. *)
Definition impactScore (key : jsstring) : option number :=
  if JS.eqb key (lit "high") then Some 3%Q
  else if JS.eqb key (lit "medium") then Some 2%Q
  else if JS.eqb key (lit "low") then Some 1%Q
  else None.

(** [{ low: 3, medium: 2, high: 1 }[key]] *)
Definition effortScore (key : jsstring) : option number :=
  if JS.eqb key (lit "low") then Some 3%Q
  else if JS.eqb key (lit "medium") then Some 2%Q
  else if JS.eqb key (lit "high") then Some 1%Q
  else None.

(** [impactScore[a.impact] * effortScore[a.effort]]; [None] stands for the
    NaN a failed lookup leads to. *)
Definition priorityScore (a : Opportunity.t) : option number :=
  match impactScore (Opportunity.impact a), effortScore (Opportunity.effort a) with
  | Some i, Some e => Some (i * e)%Q
  | _, _ => None
  end.

(** The comparator [scoreB - scoreA]; a NaN result counts as 0 for [sort]. *)
Definition byPriorityDescending (a b : Opportunity.t) : number :=
  match priorityScore a, priorityScore b with
  | Some scoreA, Some scoreB => (scoreB - scoreA)%Q
  | _, _ => 0%Q
  end.

(** [prioritizeRecommendations] sorts its argument in place and returns a
    copy of the first three entries: the pair is the array after the call and
    the value returned. *)
Definition prioritizeRecommendations (opportunities : list Opportunity.t)
  : list Opportunity.t * list Opportunity.t :=
  let sorted := sort byPriorityDescending opportunities in
  (sorted, firstn 3 sorted).

Module Improvement.
Record t : Type := {
  type : jsstring;
  estimated_speedup : jsstring;
  confidence : jsstring
}.
End Improvement.

Definition estimateImprovements (opportunities : list Opportunity.t)
  : list Improvement.t :=
  map (fun opp =>
         {| Improvement.type := Opportunity.type opp;
            Improvement.estimated_speedup :=
              if JS.eqb (Opportunity.impact opp) (lit "high") then lit "2-5x"
              else if JS.eqb (Opportunity.impact opp) (lit "medium")
                   then lit "1.5-2x"
                   else lit "1.1-1.5x";
            Improvement.confidence := lit "medium" |})
      opportunities.

Module CodeAnalysisRequest.
Record t : Type := {
  code : jsstring;
  language : jsstring;
  optimization_target : jsstring;
  include_patterns : option bool;
  include_complexity : option bool
}.
End CodeAnalysisRequest.

Module AnalysisReport.
Record t : Type := {
  analysis_timestamp : jsstring;
  language : jsstring;
  optimization_target : jsstring;
  complexity_analysis : option ComplexityResult;
  optimization_opportunities : list Opportunity.t;
  applicable_patterns : list jsstring;
  recommendation_priority : list Opportunity.t;
  estimated_improvements : list Improvement.t;
  mcp_server_version : jsstring
}.
End AnalysisReport.

(** The fields of the response are computed in the order they are written:
    [prioritizeRecommendations] sorts the opportunities array in place, so
    [estimated_improvements] is computed from the sorted array and
    [optimization_opportunities], serialized afterwards, shows it sorted. *)
Definition analyzeCodeComplexity (now : jsstring)
    (request : CodeAnalysisRequest.t) (w : World)
  : World * Outcome (ToolResponse.t AnalysisReport.t) :=
  let code := CodeAnalysisRequest.code request in
  let language := CodeAnalysisRequest.language request in
  let optimization_target := CodeAnalysisRequest.optimization_target request in
  let include_patterns :=
    match CodeAnalysisRequest.include_patterns request with
    | Some b => b
    | None => true
    end in
  let include_complexity :=
    match CodeAnalysisRequest.include_complexity request with
    | Some b => b
    | None => true
    end in
  let complexityAnalysis := performComplexityAnalysis code language in
  let optimizationOpportunities :=
    identifyOptimizationOpportunities code language optimization_target in
  let patterns := if include_patterns then detectPatterns code language else [] in
  let '(sorted, priority) := prioritizeRecommendations optimizationOpportunities in
  (w, Return (text_response
    {| AnalysisReport.analysis_timestamp := now;
       AnalysisReport.language := language;
       AnalysisReport.optimization_target := optimization_target;
       AnalysisReport.complexity_analysis :=
         if include_complexity then Some complexityAnalysis else None;
       AnalysisReport.optimization_opportunities := sorted;
       AnalysisReport.applicable_patterns := patterns;
       AnalysisReport.recommendation_priority := priority;
       AnalysisReport.estimated_improvements := estimateImprovements sorted;
       AnalysisReport.mcp_server_version := lit "1.0.0" |})).

(** ** The test-plan generator *)

Module TestCategory.
Record t : Type := {
  category : jsstring;
  tests : list jsstring
}.
End TestCategory.

(** The callback of [test_categories.map]. *)
Definition testCase (category : jsstring) : TestCategory.t :=
  if JS.eqb category (lit "edge_cases") then
    {| TestCategory.category := lit "edge_cases";
       TestCategory.tests :=
         [lit "Empty input handling"; lit "Single element input";
          lit "Maximum size input"; lit "Null/undefined values";
          lit "Boundary conditions"] |}
  else if JS.eqb category (lit "performance") then
    {| TestCategory.category := lit "performance";
       TestCategory.tests :=
         [lit "Large dataset performance (10K+ elements)";
          lit "Memory usage under load"; lit "Execution time benchmarks";
          lit "Scalability testing"; lit "Resource utilization"] |}
  else if JS.eqb category (lit "correctness") then
    {| TestCategory.category := lit "correctness";
       TestCategory.tests :=
         [lit "Algorithm correctness validation";
          lit "Output format verification"; lit "Mathematical accuracy";
          lit "Sorting/ordering validation"; lit "Data integrity checks"] |}
  else if JS.eqb category (lit "error_handling") then
    {| TestCategory.category := lit "error_handling";
       TestCategory.tests :=
         [lit "Invalid input handling"; lit "Type safety validation";
          lit "Exception propagation"; lit "Graceful degradation";
          lit "Error message quality"] |}
  else
    {| TestCategory.category := category;
       TestCategory.tests := [lit "General test case"] |}.

Module TestCaseRequest.
Record t : Type := {
  function_signature : jsstring;
  language : jsstring;
  test_categories : option (list jsstring)
}.
End TestCaseRequest.

Module TestPlan.
Record t : Type := {
  generation_timestamp : jsstring;
  function_signature : jsstring;
  language : jsstring;
  test_framework_recommendations : list jsstring;
  generated_test_categories : list TestCategory.t;
  total_test_scenarios : nat;
  mcp_server_generated : bool
}.
End TestPlan.

Definition default_test_categories : list jsstring :=
  [lit "edge_cases"; lit "performance"; lit "correctness"; lit "error_handling"].

Definition generateTestCases (now : jsstring) (args : TestCaseRequest.t)
    (w : World) : World * Outcome (ToolResponse.t TestPlan.t) :=
  let function_signature := TestCaseRequest.function_signature args in
  let language := TestCaseRequest.language args in
  let test_categories :=
    match TestCaseRequest.test_categories args with
    | Some l => l
    | None => default_test_categories
    end in
  let testCases := map testCase test_categories in
  (w, Return (text_response
    {| TestPlan.generation_timestamp := now;
       TestPlan.function_signature := function_signature;
       TestPlan.language := language;
       TestPlan.test_framework_recommendations :=
         if JS.eqb language (lit "javascript") then [lit "Jest"; lit "Mocha"]
         else if JS.eqb language (lit "python")
              then [lit "pytest"; lit "unittest"]
              else [lit "framework_specific"];
       TestPlan.generated_test_categories := testCases;
       TestPlan.total_test_scenarios :=
         fold_left (fun sum cat => sum + List.length (TestCategory.tests cat))
                   testCases 0;
       TestPlan.mcp_server_generated := true |})).

Unset Implicit Arguments.

(** ** Vocabulary of the statements *)

(** [s'] is what is left of [s] after some prefix. *)
Definition rest_of (s' s : jsstring) : Prop := exists p, s = p ++ s'.

(** Every match of [r] reads the code unit [c]. *)
Definition needs (c : N) (r : regex) : Prop :=
  forall (s : jsstring) (i : nat) (k : cont), ~ In c s -> run r s i k = None.

Definition dynamic_programming : jsstring := lit "dynamic_programming".

(** [r] matches exactly the string [m]: what a match of [r] looks like,
    without the order in which the matcher tries the alternatives. *)
Fixpoint matches (r : regex) (m : jsstring) : Prop :=
  match r with
  | Empty => m = []
  | Chr c => m = [c]
  | ClassStar p => forallb p m = true
  | Seq r1 r2 => exists m1 m2, m = m1 ++ m2 /\ matches r1 m1 /\ matches r2 m2
  | Alt r1 r2 => matches r1 m \/ matches r2 m
  end.

(** [m] occurs in [s] as a piece of consecutive code units. *)
Definition occurs_in (P : jsstring -> Prop) (s : jsstring) : Prop :=
  exists pre m post, s = pre ++ m ++ post /\ P m.

(** A [for] or [while] keyword, white space, an opening parenthesis. *)
Definition loop_header (m : jsstring) : Prop :=
  exists keyword ws,
    (keyword = lit "for" \/ keyword = lit "while")
    /\ forallb is_space ws = true
    /\ m = keyword ++ ws ++ [40%N].

Definition for_loop_header (m : jsstring) : Prop :=
  exists ws, forallb is_space ws = true /\ m = lit "for" ++ ws ++ [40%N].

(** Two [for] headers with no closing brace between them. *)
Definition nested_for_headers (m : jsstring) : Prop :=
  exists h1 mid h2,
    for_loop_header h1 /\ for_loop_header h2
    /\ forallb not_close_brace mid = true
    /\ m = h1 ++ mid ++ h2.

(** "while", "<" and "length" in this order with no line break between. *)
Definition while_below_length (m : jsstring) : Prop :=
  exists a b,
    forallb not_line_terminator a = true
    /\ forallb not_line_terminator b = true
    /\ m = lit "while" ++ a ++ [60%N] ++ b ++ lit "length".

(** The number of places in [s] where a match of [r] starts. *)
Fixpoint starts (r : regex) (s : jsstring) : nat :=
  (match exec r s with Some _ => 1 | None => 0 end)
  + match s with
    | [] => 0
    | _ :: s' => starts r s'
    end.

(** The first code unit of a loop keyword: "f" or "w". *)
Definition keyword_initial (c : N) : bool := N.eqb c 102 || N.eqb c 119.

(** Every match of [r] begins with a keyword initial and has none after
    it. *)
Definition keyword_led (r : regex) : Prop :=
  forall m, matches r m ->
    exists c m', m = c :: m' /\ keyword_initial c = true
                 /\ forallb (fun x => negb (keyword_initial x)) m' = true.

(** Largest key first. *)
Definition descending {A : Type} (key : A -> number) (a b : A) : Prop :=
  (key b <= key a)%Q.

(** The two signs [assessPatternApplicability] looks for. *)
Definition shows_overlap (code : jsstring) : bool :=
  includes code (lit "memo")
  || (includes code (lit "return") && includes code (lit "(")).

Definition shows_lookups (code : jsstring) : bool :=
  includes code (lit "find") || includes code (lit "indexOf").

(** The three conditions [identifyOptimizationOpportunities] tests. *)
Definition sorts_for_performance (code target : jsstring) : bool :=
  includes code (lit "sort(") && JS.eqb target (lit "performance").

Definition has_several_for_loops (code : jsstring) : bool :=
  1 <? match_count for_header code.

Definition searches_linearly (code : jsstring) : bool :=
  includes code (lit "indexOf") || includes code (lit "find(").

(** The categories [generateTestCases] has a list of scenarios for. *)
Definition recognized_category (category : jsstring) : bool :=
  existsb (JS.eqb category) default_test_categories.

Definition above_threshold (p : PatternResult.t) : Prop :=
  (0.3 < PatternResult.applicability_score p)%Q.

Definition unit_interval (u : number) : Prop := (0 <= u)%Q /\ (u < 1)%Q.

Definition improvement_in_range (r : BenchmarkResult.t) : Prop :=
  (-20 <= BenchmarkResult.improvement_percentage r)%Q
  /\ (BenchmarkResult.improvement_percentage r < 100)%Q.

(** ** Sample handlers and requests *)

(** A handler that records its own name in the state and returns. *)
Definition logging (tool : jsstring) : Handler (list jsstring) unit unit :=
  fun _ log => (tool :: log, Return tt).

(** A handler that refuses its arguments with an [McpError]. *)
Definition refusing (W Args Resp : Type) : Handler W Args Resp :=
  fun _ w => (w, Throw (ThrownMcpError InvalidParams (lit "refused"))).

Definition no_variants : PerformanceBenchmarkRequest.t :=
  {| PerformanceBenchmarkRequest.original_code := lit "for (;;) {}";
     PerformanceBenchmarkRequest.optimized_variants := [];
     PerformanceBenchmarkRequest.language := lit "javascript";
     PerformanceBenchmarkRequest.test_iterations := None |}.

Definition nested_loop_code : jsstring := lit "for (;;) { for (;;) {} }".

Definition two_variants : PerformanceBenchmarkRequest.t :=
  {| PerformanceBenchmarkRequest.original_code := nested_loop_code;
     PerformanceBenchmarkRequest.optimized_variants :=
       [ {| CodeVariant.name := lit "single loop";
            CodeVariant.code := lit "for (;;) {}";
            CodeVariant.description := lit "one pass" |};
         {| CodeVariant.name := lit "unchanged";
            CodeVariant.code := nested_loop_code;
            CodeVariant.description := lit "as before" |} ];
     PerformanceBenchmarkRequest.language := lit "javascript";
     PerformanceBenchmarkRequest.test_iterations := Some 10%Q |}.

Definition same_variant : PerformanceBenchmarkRequest.t :=
  {| PerformanceBenchmarkRequest.original_code := nested_loop_code;
     PerformanceBenchmarkRequest.optimized_variants :=
       [ {| CodeVariant.name := lit "unchanged";
            CodeVariant.code := nested_loop_code;
            CodeVariant.description := lit "as before" |} ];
     PerformanceBenchmarkRequest.language := lit "javascript";
     PerformanceBenchmarkRequest.test_iterations := None |}.

Definition tied_variants : PerformanceBenchmarkRequest.t :=
  {| PerformanceBenchmarkRequest.original_code := nested_loop_code;
     PerformanceBenchmarkRequest.optimized_variants :=
       [ {| CodeVariant.name := lit "first";
            CodeVariant.code := lit "for (;;) {}";
            CodeVariant.description := lit "one pass" |};
         {| CodeVariant.name := lit "second";
            CodeVariant.code := lit "while (x) {}";
            CodeVariant.description := lit "one pass too" |} ];
     PerformanceBenchmarkRequest.language := lit "javascript";
     PerformanceBenchmarkRequest.test_iterations := None |}.

(** * Properties *)

(** ** Strings and numbers *)

Lemma eqb_eq (a b : jsstring) : JS.eqb a b = true <-> a = b.
Proof.
  revert b; induction a as [|x a IH]; intros [|y b]; simpl;
    try (split; (discriminate || reflexivity)).
  rewrite andb_true_iff, N.eqb_eq, IH.
  split; [intros [-> ->]; reflexivity | intros H; inversion H; auto].
Qed.

Lemma eqb_refl (a : jsstring) : JS.eqb a a = true.
Proof. apply eqb_eq; reflexivity. Qed.

Lemma gt_spec (a b : number) : gt a b = true <-> (b < a)%Q.
Proof.
  unfold gt. rewrite negb_true_iff.
  split; intros H.
  - apply Qnot_le_lt. intros Hle. apply Qle_bool_iff in Hle. congruence.
  - destruct (Qle_bool a b) eqn:E; [|reflexivity].
    apply Qle_bool_iff in E. exfalso. exact (Qlt_not_le _ _ H E).
Qed.

Lemma of_nat_nonneg (n : nat) : (0 <= of_nat n)%Q.
Proof. unfold of_nat, Qle; simpl. lia. Qed.

Lemma of_nat_ge_1 (n : nat) : 1 <= n -> (1 <= of_nat n)%Q.
Proof. intros H. unfold of_nat, Qle; simpl. lia. Qed.

(** ** The dispatcher *)

Section DispatcherFacts.

Variables W Args Resp : Type.
Variables h1 h2 h3 h4 h5 : Handler W Args Resp.

Lemma handlerFor_registered (name : jsstring) :
  In name tool_names <-> exists h, handlerFor h1 h2 h3 h4 h5 name = Some h.
Proof.
  unfold handlerFor. split.
  - intros H. simpl in H.
    destruct H as [<-|[<-|[<-|[<-|[<-|[]]]]]]; eexists; reflexivity.
  - intros [h H].
    repeat match type of H with
    | (if JS.eqb ?a ?b then _ else _) = _ =>
        let E := fresh "E" in
        destruct (JS.eqb a b) eqn:E;
        [apply eqb_eq in E; subst name; simpl; tauto|]
    end.
    discriminate.
Qed.

Lemma handlerFor_unknown (name : jsstring) :
  ~ In name tool_names -> handlerFor h1 h2 h3 h4 h5 name = None.
Proof.
  intros H. destruct (handlerFor h1 h2 h3 h4 h5 name) as [h|] eqn:E; auto.
  exfalso. apply H. apply handlerFor_registered. eauto.
Qed.

End DispatcherFacts.

(** C1.  A tool name that is not one of the five registered names makes the
    dispatcher throw [McpError(MethodNotFound, "Tool <name> not found")],
    whatever the arguments.  No handler runs: whatever the five handlers
    would do to the state they share, that state is returned as it was. *)
Theorem unknown_tool_is_method_not_found :
  forall (W Args Resp : Type) (h1 h2 h3 h4 h5 : Handler W Args Resp)
         (name : jsstring) (args : Args) (w : W),
    ~ In name tool_names ->
    callTool h1 h2 h3 h4 h5 name args w =
      (w, Throw (ThrownMcpError MethodNotFound
                   (lit "Tool " ++ name ++ lit " not found"))).
Proof.
  intros W Args Resp h1 h2 h3 h4 h5 name args w H.
  unfold callTool, dispatch.
  rewrite (handlerFor_unknown _ _ _ h1 h2 h3 h4 h5 name H).
  reflexivity.
Qed.

Lemma unknown_tool_is_method_not_found_witness :
  ~ In (lit "run_code") tool_names /\
  callTool (logging (lit "analyze")) (logging (lit "benchmark"))
           (logging (lit "detect")) (logging (lit "generate"))
           (logging (lit "report")) (lit "run_code") tt [] =
    ([], Throw (ThrownMcpError MethodNotFound (lit "Tool run_code not found"))).
Proof.
  assert (H : ~ In (lit "run_code") tool_names).
  { simpl. intros [H|[H|[H|[H|[H|[]]]]]]; discriminate H. }
  split; [exact H|].
  exact (unknown_tool_is_method_not_found _ _ _
           (logging (lit "analyze")) (logging (lit "benchmark"))
           (logging (lit "detect")) (logging (lit "generate"))
           (logging (lit "report")) (lit "run_code") tt [] H).
Defined.

(** C2.  For a registered tool the dispatcher runs the handler of that tool.
    When the handler throws an [McpError], the caller gets that very error;
    when it throws anything else, the caller gets an [InternalError] whose
    message ends with the message of what was thrown. *)
Theorem handler_exception_is_surfaced :
  forall (W Args Resp : Type) (h1 h2 h3 h4 h5 : Handler W Args Resp)
         (name : jsstring) (args : Args) (w : W),
    In name tool_names ->
    exists handler,
      handlerFor h1 h2 h3 h4 h5 name = Some handler /\
      forall (w' : W) (e : Thrown),
        handler args w = (w', Throw e) ->
        match e with
        | ThrownMcpError code message =>
            callTool h1 h2 h3 h4 h5 name args w =
              (w', Throw (ThrownMcpError code message))
        | ThrownError message | ThrownValue message =>
            callTool h1 h2 h3 h4 h5 name args w =
              (w', Throw (ThrownMcpError InternalError
                            (lit "Error executing tool " ++ name ++ lit ": "
                             ++ message)))
        end.
Proof.
  intros W Args Resp h1 h2 h3 h4 h5 name args w H.
  apply (handlerFor_registered _ _ _ h1 h2 h3 h4 h5) in H.
  destruct H as [handler Hh].
  exists handler. split; [exact Hh|].
  intros w' e He. unfold callTool, dispatch. rewrite Hh, He.
  destruct e; reflexivity.
Qed.

Lemma handler_exception_is_surfaced_witness :
  In (lit "benchmark_performance") tool_names /\
  exists handler,
    handlerFor (refusing _ _ _)
               (benchmarkPerformance (fun _ => 0.5%Q) (lit "2024-01-01"))
               (refusing _ _ _) (refusing _ _ _) (refusing _ _ _)
               (lit "benchmark_performance") = Some handler /\
    forall (w' : World) (e : Thrown),
      handler no_variants {| draws := 0 |} = (w', Throw e) ->
      match e with
      | ThrownMcpError code message =>
          callTool (refusing _ _ _)
                   (benchmarkPerformance (fun _ => 0.5%Q) (lit "2024-01-01"))
                   (refusing _ _ _) (refusing _ _ _) (refusing _ _ _)
                   (lit "benchmark_performance") no_variants {| draws := 0 |} =
            (w', Throw (ThrownMcpError code message))
      | ThrownError message | ThrownValue message =>
          callTool (refusing _ _ _)
                   (benchmarkPerformance (fun _ => 0.5%Q) (lit "2024-01-01"))
                   (refusing _ _ _) (refusing _ _ _) (refusing _ _ _)
                   (lit "benchmark_performance") no_variants {| draws := 0 |} =
            (w', Throw (ThrownMcpError InternalError
                          (lit "Error executing tool "
                           ++ lit "benchmark_performance" ++ lit ": "
                           ++ message)))
      end.
Proof.
  assert (H : In (lit "benchmark_performance") tool_names).
  { simpl. right. left. reflexivity. }
  split; [exact H|].
  exact (handler_exception_is_surfaced _ _ _
           (refusing _ _ _)
           (benchmarkPerformance (fun _ => 0.5%Q) (lit "2024-01-01"))
           (refusing _ _ _) (refusing _ _ _) (refusing _ _ _)
           (lit "benchmark_performance") no_variants {| draws := 0 |} H).
Defined.

(** ** The regular expressions need an opening parenthesis *)

Lemma rest_of_refl (s : jsstring) : rest_of s s.
Proof. exists []. reflexivity. Qed.

Lemma rest_of_tail (x : N) (s' s : jsstring) :
  rest_of s' s -> rest_of s' (x :: s).
Proof. intros [p ->]. exists (x :: p). reflexivity. Qed.

Lemma rest_of_trans (a b c : jsstring) :
  rest_of a b -> rest_of b c -> rest_of a c.
Proof.
  intros [p ->] [q ->]. exists (q ++ p). now rewrite app_assoc.
Qed.

Lemma rest_of_not_In (c : N) (s' s : jsstring) :
  rest_of s' s -> ~ In c s -> ~ In c s'.
Proof.
  intros [p ->] H Hin. apply H. apply in_or_app. now right.
Qed.

(** The matcher only ever resumes on what is left of its input: when the
    continuation fails on all of that, so does the match. *)
Lemma star_class_fails (p : N -> bool) (s : jsstring) :
  forall (i : nat) (k : cont),
    (forall s' j, rest_of s' s -> k s' j = None) ->
    star_class p s i k = None.
Proof.
  induction s as [|x s IH]; intros i k Hk; simpl.
  - apply Hk, rest_of_refl.
  - rewrite (IH (S i) k).
    + rewrite (Hk _ i (rest_of_refl _)). now destruct (p x).
    + intros s' j H. apply Hk. now apply rest_of_tail.
Qed.

Lemma run_fails (r : regex) :
  forall (s : jsstring) (i : nat) (k : cont),
    (forall s' j, rest_of s' s -> k s' j = None) ->
    run r s i k = None.
Proof.
  induction r as [|c|p|r1 IH1 r2 IH2|r1 IH1 r2 IH2]; intros s i k Hk; simpl.
  - apply Hk, rest_of_refl.
  - destruct s as [|x s]; [reflexivity|].
    destruct (N.eqb x c); [|reflexivity].
    apply Hk. apply rest_of_tail, rest_of_refl.
  - now apply star_class_fails.
  - apply IH1. intros s' j H. apply IH2.
    intros s'' j' H'. apply Hk. exact (rest_of_trans _ _ _ H' H).
  - rewrite (IH1 _ _ _ Hk). now apply IH2.
Qed.

Lemma needs_Chr (c : N) : needs c (Chr c).
Proof.
  intros [|x s] i k H; simpl; [reflexivity|].
  destruct (N.eqb x c) eqn:E; [|reflexivity].
  apply N.eqb_eq in E. exfalso. apply H. now left.
Qed.

Lemma needs_Seq_r (c : N) (r1 r2 : regex) : needs c r2 -> needs c (Seq r1 r2).
Proof.
  intros H s i k Hs. simpl. apply run_fails.
  intros s' j Hrest. apply H. exact (rest_of_not_In _ _ _ Hrest Hs).
Qed.

Lemma needs_Alt (c : N) (r1 r2 : regex) :
  needs c r1 -> needs c r2 -> needs c (Alt r1 r2).
Proof.
  intros H1 H2 s i k Hs. simpl. rewrite (H1 _ _ _ Hs). now apply H2.
Qed.

Lemma scan_needs (c : N) (r : regex) :
  needs c r ->
  forall (s : jsstring) (skip : nat), ~ In c s -> scan r s skip = 0.
Proof.
  intros H. induction s as [|x s IH]; intros skip Hs.
  - destruct skip; simpl; [|reflexivity].
    unfold exec. now rewrite (H _ _ _ Hs).
  - assert (Hs' : ~ In c s) by (intros Hin; apply Hs; now right).
    destruct skip; simpl.
    + unfold exec. rewrite (H _ _ _ Hs). now apply IH.
    + now apply IH.
Qed.

Lemma needs_paren_for_header : needs 40%N for_header.
Proof. unfold for_header. repeat apply needs_Seq_r. apply needs_Chr. Qed.

Lemma needs_paren_while_header : needs 40%N while_header.
Proof. unfold while_header. repeat apply needs_Seq_r. apply needs_Chr. Qed.

Lemma needs_paren_loop_regex : needs 40%N loop_regex.
Proof.
  apply needs_Alt;
    [apply needs_paren_for_header | apply needs_paren_while_header].
Qed.

Lemma needs_paren_nested_regex : needs 40%N nested_regex.
Proof.
  unfold nested_regex. do 2 apply needs_Seq_r. apply needs_paren_for_header.
Qed.

Lemma includes_paren_false (s : jsstring) :
  includes s (lit "(") = false -> ~ In 40%N s.
Proof.
  induction s as [|x s IH]; simpl; [tauto|].
  rewrite andb_true_r. intros H.
  apply orb_false_iff in H. destruct H as [Hx Hs].
  intros [E|Hin]; [|exact (IH Hs Hin)].
  subst x. discriminate Hx.
Qed.

(** Code without an opening parenthesis shows no indicator at all. *)
Lemma no_paren_no_indicator (code language : jsstring) :
  includes code (lit "(") = false ->
  let r := performComplexityAnalysis code language in
  loop_count r = 0 /\ nested_loops r = 0 /\ recursive_calls r = 0.
Proof.
  intros H. simpl. unfold match_count.
  pose proof (includes_paren_false _ H) as Hp.
  rewrite (scan_needs _ _ needs_paren_loop_regex _ 0 Hp).
  rewrite (scan_needs _ _ needs_paren_nested_regex _ 0 Hp).
  rewrite H, andb_false_r. auto.
Qed.

(** ** The complexity analyzer *)

Lemma complexity_labels_differ : O_n <> O_1 /\ O_n2 <> O_n /\ O_n2 <> O_1.
Proof. repeat split; discriminate. Qed.


(** The scenario of two nested loop headers. *)
Example nested_loop_scenario :
  let r := performComplexityAnalysis nested_loop_code (lit "javascript") in
  loop_count r = 2 /\ nested_loops r = 1 /\ recursive_calls r = 0
  /\ complexity_score r = 4 /\ estimateComplexity nested_loop_code = 5.
Proof. vm_compute. repeat split. Qed.

(** The nested-loop pattern is greedy: a run of four headers is one match. *)
Example nested_regex_is_greedy :
  match_count nested_regex (lit "for(for(for(for(") = 1
  /\ match_count loop_regex (lit "for(for(for(for(") = 4.
Proof. vm_compute. split; reflexivity. Qed.

(** ** The pattern detector *)

(** C4, as stated, fails: a snippet that only mentions "memo" (no "return",
    no call) is scored 0.8 although it does not show both signs. *)
Lemma dynamic_programming_memo_alone :
  ~ (Applicability.score
       (assessPatternApplicability (lit "memo") dynamic_programming
                                   (lit "javascript")) = 0.8%Q
     <-> (includes (lit "memo") (lit "return") && includes (lit "memo") (lit "("))
         && includes (lit "memo") (lit "memo") = true).
Proof.
  intros [H _].
  assert (E : Applicability.score
                (assessPatternApplicability (lit "memo") dynamic_programming
                                            (lit "javascript")) = 0.8%Q)
    by (vm_compute; reflexivity).
  specialize (H E). vm_compute in H. discriminate H.
Qed.

(** C4, amended.  When "dynamic_programming" is requested, the score is 0.8
    if and only if the snippet contains "memo" or shows the recursion proxy
    (contains "return" and "("); otherwise it is 0.2. *)
Theorem dynamic_programming_score :
  forall (code language : jsstring),
    let a := assessPatternApplicability code dynamic_programming language in
    let signs :=
      includes code (lit "memo")
      || (includes code (lit "return") && includes code (lit "(")) in
    (Applicability.score a = 0.8%Q <-> signs = true)
    /\ (Applicability.score a = 0.2%Q <-> signs = false).
Proof.
  intros code language. unfold assessPatternApplicability.
  replace (JS.eqb dynamic_programming (lit "dynamic_programming")) with true
    by (symmetry; apply eqb_refl).
  cbn [Applicability.score].
  destruct (includes code (lit "memo")
            || includes code (lit "return") && includes code (lit "("));
    cbv zeta; split; split; intros H; try reflexivity; discriminate H.
Qed.

Lemma dynamic_programming_score_witness :
  Applicability.score
    (assessPatternApplicability (lit "return fib(n - 1) + fib(n - 2)")
                                dynamic_programming (lit "javascript")) = 0.8%Q.
Proof.
  apply (dynamic_programming_score (lit "return fib(n - 1) + fib(n - 2)")
                                   (lit "javascript")).
  vm_compute. reflexivity.
Defined.

(** ** The two scorers *)

(** C5, as stated, fails: on the empty string the analyzer's
    [complexity_score] is 0 while the benchmark scores it 1, for the original
    code and for a variant alike. *)
Lemma benchmark_scorer_is_not_complexity_score :
  ~ (estimateComplexity [] =
     complexity_score (performComplexityAnalysis [] (lit "javascript"))).
Proof. vm_compute. discriminate. Qed.

Lemma benchmarkResults_scores (random : nat -> number) (original_code : jsstring)
    (test_iterations : number) (variants : list CodeVariant.t) :
  forall w : World,
    map BenchmarkResult.complexity_score
        (fst (benchmarkResults random original_code test_iterations variants w))
    = map (fun v => estimateComplexity (CodeVariant.code v)) variants.
Proof.
  unfold benchmarkResults.
  induction variants as [|v vs IH]; intros w; [reflexivity|].
  cbn [map_st]. unfold benchmarkVariant at 1. cbn [Math_random].
  specialize (IH {| draws := S (draws w) |}).
  destruct (map_st _ vs _) as [ys w2].
  cbn [fst map BenchmarkResult.complexity_score] in *.
  now rewrite IH.
Qed.

(** C5, amended.  The benchmark scores the original code and every variant
    with [estimateComplexity], which is [1 + loop_count + 2 * nested_loops]
    over the same two counts as the analyzer: it is the analyzer's
    [complexity_score] plus one, without the [recursive_calls] term. *)
Theorem benchmark_scorer_rule :
  forall (random : nat -> number) (original_code language : jsstring)
         (test_iterations : number) (variants : list CodeVariant.t) (w : World),
    let r := performComplexityAnalysis original_code language in
    estimateComplexity original_code = 1 + loop_count r + 2 * nested_loops r
    /\ estimateComplexity original_code + recursive_calls r
       = complexity_score r + 1
    /\ map BenchmarkResult.complexity_score
           (fst (benchmarkResults random original_code test_iterations
                                  variants w))
       = map (fun v => estimateComplexity (CodeVariant.code v)) variants
    /\ forall variant_code,
         improvementFactor original_code variant_code
         = (of_nat (estimateComplexity original_code)
            / Math_max (of_nat (estimateComplexity variant_code)) 0.1)%Q.
Proof.
  intros random original_code language test_iterations variants w r.
  split; [|split; [|split]].
  - subst r. unfold estimateComplexity, performComplexityAnalysis.
    cbn [loop_count nested_loops]. lia.
  - subst r. unfold estimateComplexity, performComplexityAnalysis.
    cbn [loop_count nested_loops recursive_calls complexity_score]. lia.
  - apply benchmarkResults_scores.
  - intros variant_code. reflexivity.
Qed.

(** ** The benchmark simulator: no variants *)

(** C6.  With an empty [optimized_variants] list the handler of
    [benchmark_performance] throws (the [reduce] over the empty result array
    has no initial value), and the dispatcher surfaces this to the caller as
    an [InternalError]: no report, and so no undefined best variant, is
    returned. *)
Theorem empty_variants_fail :
  forall (random : nat -> number) (now : jsstring)
         (request : PerformanceBenchmarkRequest.t) (w : World),
    PerformanceBenchmarkRequest.optimized_variants request = [] ->
    benchmarkPerformance random now request w
      = (w, Throw (ThrownError reduce_of_empty_array))
    /\ forall h1 h3 h4 h5,
         callTool h1 (benchmarkPerformance random now) h3 h4 h5
                  (lit "benchmark_performance") request w
         = (w, Throw (ThrownMcpError InternalError
                        (lit "Error executing tool benchmark_performance: "
                         ++ reduce_of_empty_array))).
Proof.
  intros random now request w H.
  assert (E : benchmarkPerformance random now request w
              = (w, Throw (ThrownError reduce_of_empty_array))).
  { unfold benchmarkPerformance. rewrite H. reflexivity. }
  split; [exact E|].
  intros h1 h3 h4 h5. unfold callTool, dispatch.
  change (handlerFor h1 (benchmarkPerformance random now) h3 h4 h5
                     (lit "benchmark_performance"))
    with (Some (benchmarkPerformance random now)).
  cbv beta iota. rewrite E. reflexivity.
Qed.

Lemma empty_variants_fail_witness :
  benchmarkPerformance (fun _ => 0.5%Q) (lit "2024-01-01") no_variants
                       {| draws := 0 |}
  = ({| draws := 0 |}, Throw (ThrownError reduce_of_empty_array)).
Proof.
  apply (empty_variants_fail (fun _ => 0.5%Q) (lit "2024-01-01") no_variants
                             {| draws := 0 |}).
  reflexivity.
Defined.

(** ** The pattern detector: the threshold *)

Lemma insert_In (A : Type) (cmp : A -> A -> number) (x y : A) (l : list A) :
  In y (insert cmp x l) -> y = x \/ In y l.
Proof.
  induction l as [|z l IH]; simpl.
  - intros [H|[]]; auto.
  - destruct (gt (cmp x z) 0%Q); simpl.
    + intros [H|H]; [auto|]. destruct (IH H); auto.
    + intros [H|[H|H]]; auto.
Qed.

Lemma sort_In (A : Type) (cmp : A -> A -> number) (y : A) (l : list A) :
  In y (sort cmp l) -> In y l.
Proof.
  induction l as [|x l IH]; simpl; [tauto|].
  intros H. apply insert_In in H. destruct H as [->|H]; auto.
Qed.

Lemma detectedPatterns_above_threshold (code_snippet language : jsstring)
    (pattern_types : list jsstring) :
  Forall above_threshold (detectedPatterns code_snippet language pattern_types).
Proof.
  apply Forall_forall. intros p H. unfold detectedPatterns in H.
  apply filter_In in H. destruct H as [_ H].
  now apply gt_spec in H.
Qed.

(** C7.  For every snippet and every requested list of pattern names
    (the default list when none is given), [detect_optimization_patterns]
    returns a report, and every entry of its [detected_patterns] has an
    [applicability_score] strictly above 0.3. *)
Theorem detected_patterns_above_threshold :
  forall (now : jsstring) (request : OptimizationPatternRequest.t) (w : World),
    exists report,
      detectOptimizationPatterns now request w
        = (w, Return (text_response report))
      /\ Forall above_threshold (PatternReport.detected_patterns report)
      /\ forall p, In p (PatternReport.detected_patterns report) ->
                   ~ (PatternResult.applicability_score p <= 0.3)%Q.
Proof.
  intros now request w. unfold detectOptimizationPatterns.
  eexists. split; [reflexivity|]. cbn [PatternReport.detected_patterns].
  assert (F : Forall above_threshold
                (sort byScoreDescending
                   (detectedPatterns
                      (OptimizationPatternRequest.code_snippet request)
                      (OptimizationPatternRequest.language request)
                      match OptimizationPatternRequest.pattern_types request with
                      | Some l => l
                      | None => default_pattern_types
                      end))).
  { apply Forall_forall. intros p H. apply sort_In in H.
    revert p H. apply Forall_forall, detectedPatterns_above_threshold. }
  split; [exact F|].
  intros p H. rewrite Forall_forall in F. specialize (F p H).
  unfold above_threshold in F. apply Qlt_not_le. exact F.
Qed.

Lemma detected_patterns_above_threshold_witness :
  exists report,
    detectOptimizationPatterns
      (lit "2024-01-01")
      {| OptimizationPatternRequest.code_snippet := lit "items.indexOf(x)";
         OptimizationPatternRequest.language := lit "javascript";
         OptimizationPatternRequest.pattern_types := None |}
      {| draws := 0 |}
      = ({| draws := 0 |}, Return (text_response report))
    /\ Forall above_threshold (PatternReport.detected_patterns report)
    /\ forall p, In p (PatternReport.detected_patterns report) ->
                 ~ (PatternResult.applicability_score p <= 0.3)%Q.
Proof.
  exact (detected_patterns_above_threshold
           (lit "2024-01-01")
           {| OptimizationPatternRequest.code_snippet := lit "items.indexOf(x)";
              OptimizationPatternRequest.language := lit "javascript";
              OptimizationPatternRequest.pattern_types := None |}
           {| draws := 0 |}).
Defined.

(** On that snippet the default list leaves four patterns, "caching" first:
    "dynamic_programming" scores 0.2 and is dropped. *)
Example detected_patterns_indexOf :
  map (fun p => (PatternResult.pattern_name p,
                 PatternResult.applicability_score p))
      (sort byScoreDescending
         (detectedPatterns (lit "items.indexOf(x)") (lit "javascript")
                           default_pattern_types))
  = [(lit "caching", 0.9%Q); (lit "two_pointers", 0.5%Q);
     (lit "sliding_window", 0.5%Q); (lit "hash_maps", 0.5%Q)].
Proof. vm_compute. reflexivity. Qed.

(** ** The benchmark simulator: the score is at least one *)

Lemma Math_max_left (a b : number) : (b < a)%Q -> Math_max a b = a.
Proof.
  intros H. unfold Math_max, Qmax, GenericMinMax.gmax.
  apply Qgt_alt in H. now rewrite H.
Qed.

Lemma estimateComplexity_ge_1 (code : jsstring) : 1 <= estimateComplexity code.
Proof. unfold estimateComplexity. lia. Qed.

Lemma improvementFactor_quotient (original_code variant_code : jsstring) :
  improvementFactor original_code variant_code
  = (of_nat (estimateComplexity original_code)
     / of_nat (estimateComplexity variant_code))%Q.
Proof.
  unfold improvementFactor. rewrite Math_max_left; [reflexivity|].
  pose proof (of_nat_ge_1 _ (estimateComplexity_ge_1 variant_code)). lra.
Qed.

Lemma improvementFactor_pos (original_code variant_code : jsstring) :
  (0 < improvementFactor original_code variant_code)%Q.
Proof.
  rewrite improvementFactor_quotient.
  pose proof (of_nat_ge_1 _ (estimateComplexity_ge_1 original_code)).
  pose proof (of_nat_ge_1 _ (estimateComplexity_ge_1 variant_code)).
  apply Qlt_shift_div_l; lra.
Qed.

(** C9.  The benchmark's complexity estimate of any string is at least 1, so
    [Math.max(variantComplexity, 0.1)] is [variantComplexity] itself and the
    improvement factor is the quotient of two estimates, which is positive. *)
Theorem estimate_floor_never_applies :
  forall (original_code variant_code : jsstring),
    1 <= estimateComplexity variant_code
    /\ Math_max (of_nat (estimateComplexity variant_code)) 0.1%Q
       = of_nat (estimateComplexity variant_code)
    /\ improvementFactor original_code variant_code
       = (of_nat (estimateComplexity original_code)
          / of_nat (estimateComplexity variant_code))%Q
    /\ (0 < of_nat (estimateComplexity variant_code))%Q
    /\ (0 < improvementFactor original_code variant_code)%Q.
Proof.
  intros original_code variant_code.
  pose proof (of_nat_ge_1 _ (estimateComplexity_ge_1 variant_code)) as H.
  split; [apply estimateComplexity_ge_1|].
  split; [apply Math_max_left; lra|].
  split; [apply improvementFactor_quotient|].
  split; [lra | apply improvementFactor_pos].
Qed.

(** ** The benchmark simulator: the range of the improvement *)

Lemma execution_time_pos (random : nat -> number) (original_code : jsstring)
    (test_iterations : number) (variant : CodeVariant.t) (w : World) :
  (0 <= random (draws w))%Q ->
  (0 < BenchmarkResult.execution_time_ms
         (fst (benchmarkVariant random original_code test_iterations variant w)))%Q.
Proof.
  intros Hu. unfold benchmarkVariant, Math_random.
  cbn [fst BenchmarkResult.execution_time_ms].
  pose proof (improvementFactor_pos original_code (CodeVariant.code variant))
    as Hf.
  set (f := improvementFactor original_code (CodeVariant.code variant)) in *.
  set (u := random (draws w)) in *.
  assert (Hinv : (0 < 1 / f)%Q) by (apply Qlt_shift_div_l; lra).
  set (q := (1 / f)%Q) in *.
  apply Qmult_lt_0_compat; lra.
Qed.

Lemma benchmarkVariant_range (random : nat -> number) (original_code : jsstring)
    (test_iterations : number) (variant : CodeVariant.t) (w : World) :
  (0 <= random (draws w))%Q ->
  improvement_in_range
    (fst (benchmarkVariant random original_code test_iterations variant w)).
Proof.
  intros Hu.
  pose proof (execution_time_pos random original_code test_iterations variant w
                                 Hu) as Ht.
  unfold improvement_in_range.
  unfold benchmarkVariant, Math_random in *.
  cbn [fst BenchmarkResult.execution_time_ms
       BenchmarkResult.improvement_percentage] in *.
  set (t := (1 / improvementFactor original_code (CodeVariant.code variant)
             * (0.8 + random (draws w) * 0.4))%Q) in *.
  unfold Math_max. split.
  - apply Q.le_max_l.
  - apply Q.max_lub_lt; lra.
Qed.

Lemma benchmarkResults_range (random : nat -> number) (original_code : jsstring)
    (test_iterations : number) (variants : list CodeVariant.t) :
  (forall n, unit_interval (random n)) ->
  forall w : World,
    Forall improvement_in_range
      (fst (benchmarkResults random original_code test_iterations variants w)).
Proof.
  intros Hrandom. unfold benchmarkResults.
  induction variants as [|v vs IH]; intros w; [constructor|].
  cbn [map_st].
  pose proof (benchmarkVariant_range random original_code test_iterations v w
                (proj1 (Hrandom (draws w)))) as Hv.
  destruct (benchmarkVariant random original_code test_iterations v w)
    as [y w1].
  specialize (IH w1). destruct (map_st _ vs w1) as [ys w2].
  constructor; assumption.
Qed.

Lemma benchmarkResults_length (random : nat -> number) (original_code : jsstring)
    (test_iterations : number) (variants : list CodeVariant.t) :
  forall w : World,
    List.length
      (fst (benchmarkResults random original_code test_iterations variants w))
    = List.length variants.
Proof.
  intros w.
  rewrite <- (length_map BenchmarkResult.complexity_score).
  rewrite benchmarkResults_scores. apply length_map.
Qed.

(** The best variant is one of the results. *)
Lemma fold_left_better_In (l : list BenchmarkResult.t) :
  forall x, In (fold_left better l x) (x :: l).
Proof.
  induction l as [|y l IH]; intros x; simpl; [auto|].
  destruct (IH (better x y)) as [H|H]; [|auto].
  rewrite <- H. unfold better.
  destruct (gt _ _); auto.
Qed.

(** C10.  Whatever the original code and the variants (at least one), and
    whatever values in [0,1) the random source gives, [benchmark_performance]
    returns a report with one result per variant, and the
    [improvement_percentage] of every result, and of the best variant, is at
    least -20 and strictly below 100. *)
Theorem improvement_percentage_range :
  forall (random : nat -> number) (now : jsstring)
         (request : PerformanceBenchmarkRequest.t) (w : World),
    (forall n, unit_interval (random n)) ->
    PerformanceBenchmarkRequest.optimized_variants request <> [] ->
    exists w' report,
      benchmarkPerformance random now request w
        = (w', Return (text_response report))
      /\ List.length (BenchmarkReport.variant_results report)
         = List.length (PerformanceBenchmarkRequest.optimized_variants request)
      /\ Forall improvement_in_range (BenchmarkReport.variant_results report)
      /\ improvement_in_range (BenchmarkReport.best_variant report).
Proof.
  intros random now request w Hrandom Hne.
  unfold benchmarkPerformance.
  set (test_iterations :=
         match PerformanceBenchmarkRequest.test_iterations request with
         | Some n => n
         | None => 1000%Q
         end).
  pose proof (benchmarkResults_range random
                (PerformanceBenchmarkRequest.original_code request)
                test_iterations
                (PerformanceBenchmarkRequest.optimized_variants request)
                Hrandom w) as Hrange.
  pose proof (benchmarkResults_length random
                (PerformanceBenchmarkRequest.original_code request)
                test_iterations
                (PerformanceBenchmarkRequest.optimized_variants request) w)
    as Hlen.
  destruct (benchmarkResults random _ test_iterations _ w) as [results w'].
  cbn [fst] in Hrange, Hlen.
  destruct results as [|x xs].
  - exfalso. apply Hne.
    destruct (PerformanceBenchmarkRequest.optimized_variants request);
      [reflexivity | discriminate Hlen].
  - cbn [reduce]. eexists. eexists. split; [reflexivity|].
    cbn [BenchmarkReport.variant_results BenchmarkReport.best_variant].
    split; [exact Hlen|]. split; [exact Hrange|].
    rewrite Forall_forall in Hrange. apply Hrange.
    apply fold_left_better_In.
Qed.

Lemma improvement_percentage_range_witness :
  exists w' report,
    benchmarkPerformance (fun _ => 0.5%Q) (lit "2024-01-01") two_variants
                         {| draws := 0 |}
      = (w', Return (text_response report))
    /\ List.length (BenchmarkReport.variant_results report) = 2
    /\ Forall improvement_in_range (BenchmarkReport.variant_results report)
    /\ improvement_in_range (BenchmarkReport.best_variant report).
Proof.
  apply (improvement_percentage_range (fun _ => 0.5%Q) (lit "2024-01-01")
                                      two_variants {| draws := 0 |}).
  - intros n. unfold unit_interval, Qle, Qlt. simpl. lia.
  - simpl. discriminate.
Defined.

(** ** The benchmark simulator: a variant identical to the original *)

Lemma improvementFactor_same (code : jsstring) :
  (improvementFactor code code == 1)%Q.
Proof.
  rewrite improvementFactor_quotient.
  pose proof (of_nat_ge_1 _ (estimateComplexity_ge_1 code)) as H.
  field. lra.
Qed.

(** C8.  With exactly one variant whose code is the original code and a
    random draw [U] in [0,1), the improvement factor is 1, the simulated
    execution time is [0.8 + 0.4 * U], the improvement percentage lies in
    (-20, 20], and the report names that single variant as the best one. *)
Theorem identical_variant_benchmark :
  forall (random : nat -> number) (now : jsstring)
         (request : PerformanceBenchmarkRequest.t) (variant : CodeVariant.t)
         (w : World),
    PerformanceBenchmarkRequest.optimized_variants request = [variant] ->
    CodeVariant.code variant
      = PerformanceBenchmarkRequest.original_code request ->
    unit_interval (random (draws w)) ->
    exists r report,
      benchmarkPerformance random now request w
        = ({| draws := S (draws w) |}, Return (text_response report))
      /\ BenchmarkReport.variant_results report = [r]
      /\ BenchmarkReport.best_variant report = r
      /\ BenchmarkResult.variant_name r = CodeVariant.name variant
      /\ (improvementFactor (PerformanceBenchmarkRequest.original_code request)
                            (CodeVariant.code variant) == 1)%Q
      /\ (BenchmarkResult.execution_time_ms r
          == 0.8 + 0.4 * random (draws w))%Q
      /\ (-20 < BenchmarkResult.improvement_percentage r)%Q
      /\ (BenchmarkResult.improvement_percentage r <= 20)%Q.
Proof.
  intros random now request variant w Hvs Hcode [Hu0 Hu1].
  unfold benchmarkPerformance, benchmarkResults. rewrite Hvs.
  cbn [map_st]. unfold benchmarkVariant at 1, Math_random.
  cbn [reduce fold_left].
  eexists. eexists. split; [reflexivity|].
  cbn [BenchmarkReport.variant_results BenchmarkReport.best_variant
       BenchmarkResult.variant_name BenchmarkResult.execution_time_ms
       BenchmarkResult.improvement_percentage].
  split; [reflexivity|]. split; [reflexivity|]. split; [reflexivity|].
  cbn [BenchmarkResult.execution_time_ms
       BenchmarkResult.improvement_percentage].
  rewrite Hcode.
  pose proof (improvementFactor_same
                (PerformanceBenchmarkRequest.original_code request)) as Hf.
  set (f := improvementFactor _ _) in *.
  set (u := random (draws w)) in *.
  assert (Ht : (1 / f * (0.8 + u * 0.4) == 0.8 + 0.4 * u)%Q).
  { rewrite Hf. field. }
  split; [exact Hf|]. split; [exact Ht|].
  set (t := (1 / f * (0.8 + u * 0.4))%Q) in *.
  unfold Math_max.
  destruct (Q.max_spec (-20) ((1 - t) * 100)) as [[L E]|[L E]];
    split; lra.
Qed.

Lemma identical_variant_benchmark_witness :
  exists r report,
    benchmarkPerformance (fun _ => 0.25%Q) (lit "2024-01-01") same_variant
                         {| draws := 0 |}
      = ({| draws := 1 |}, Return (text_response report))
    /\ BenchmarkReport.variant_results report = [r]
    /\ BenchmarkReport.best_variant report = r
    /\ BenchmarkResult.variant_name r = lit "unchanged"
    /\ (improvementFactor nested_loop_code nested_loop_code == 1)%Q
    /\ (BenchmarkResult.execution_time_ms r == 0.8 + 0.4 * 0.25)%Q
    /\ (-20 < BenchmarkResult.improvement_percentage r)%Q
    /\ (BenchmarkResult.improvement_percentage r <= 20)%Q.
Proof.
  apply (identical_variant_benchmark (fun _ => 0.25%Q) (lit "2024-01-01")
           same_variant
           {| CodeVariant.name := lit "unchanged";
              CodeVariant.code := nested_loop_code;
              CodeVariant.description := lit "as before" |}
           {| draws := 0 |}).
  - reflexivity.
  - reflexivity.
  - unfold unit_interval, Qle, Qlt. simpl. lia.
Defined.

(** * Further properties of the server *)

(** ** The dispatcher: what reaches the caller *)

(** X1.  Whatever a handler throws, what the dispatcher throws to its caller
    is an [McpError]: a raw error never leaves it. *)
Theorem dispatcher_throws_only_mcp_errors :
  forall (W Args Resp : Type) (h1 h2 h3 h4 h5 : Handler W Args Resp)
         (name : jsstring) (args : Args) (w w' : W) (e : Thrown),
    callTool h1 h2 h3 h4 h5 name args w = (w', Throw e) ->
    exists code message, e = ThrownMcpError code message.
Proof.
  intros W Args Resp h1 h2 h3 h4 h5 name args w w' e H.
  unfold callTool in H.
  destruct (dispatch h1 h2 h3 h4 h5 name args w) as [w1 [r|e1]].
  - discriminate H.
  - injection H as _ <-. destruct e1; simpl; eauto.
Qed.

Lemma dispatcher_throws_only_mcp_errors_witness :
  exists code message,
    ThrownMcpError InternalError
      (lit "Error executing tool benchmark_performance: "
       ++ reduce_of_empty_array)
    = ThrownMcpError code message.
Proof.
  apply (dispatcher_throws_only_mcp_errors _ _ _
           (refusing _ _ _)
           (benchmarkPerformance (fun _ => 0.5%Q) (lit "2024-01-01"))
           (refusing _ _ _) (refusing _ _ _) (refusing _ _ _)
           (lit "benchmark_performance") no_variants
           {| draws := 0 |} {| draws := 0 |}).
  reflexivity.
Defined.

(** X2.  The tool list and the dispatcher agree: a name has a handler in the
    [switch] exactly when the tool list advertises it. *)
Theorem listed_tools_are_the_dispatched_ones :
  forall (W Args Resp : Type) (h1 h2 h3 h4 h5 : Handler W Args Resp)
         (name : jsstring),
    In name (map ToolDefinition.name tools)
    <-> handlerFor h1 h2 h3 h4 h5 name <> None.
Proof.
  intros W Args Resp h1 h2 h3 h4 h5 name.
  fold tool_names. rewrite (handlerFor_registered _ _ _ h1 h2 h3 h4 h5).
  split.
  - intros [h ->]. discriminate.
  - destruct (handlerFor h1 h2 h3 h4 h5 name) as [h|]; [eauto | congruence].
Qed.

(** When the handler of a listed tool returns, the dispatcher returns
    that response and leaves the state as the handler left it. *)
Theorem handler_result_passes_through :
  forall (W Args Resp : Type) (h1 h2 h3 h4 h5 : Handler W Args Resp)
         (name : jsstring) (handler : Handler W Args Resp)
         (args : Args) (w w' : W) (r : Resp),
    handlerFor h1 h2 h3 h4 h5 name = Some handler ->
    handler args w = (w', Return r) ->
    callTool h1 h2 h3 h4 h5 name args w = (w', Return r).
Proof.
  intros W Args Resp h1 h2 h3 h4 h5 name handler args w w' r Hh Hr.
  unfold callTool, dispatch. now rewrite Hh, Hr.
Qed.

Lemma handler_result_passes_through_witness :
  callTool (logging (lit "analyze")) (logging (lit "benchmark"))
           (logging (lit "detect")) (logging (lit "generate"))
           (logging (lit "report")) (lit "generate_test_cases") tt []
  = ([lit "generate"], Return tt).
Proof.
  apply (handler_result_passes_through _ _ _
           (logging (lit "analyze")) (logging (lit "benchmark"))
           (logging (lit "detect")) (logging (lit "generate"))
           (logging (lit "report")) (lit "generate_test_cases")
           (logging (lit "generate")) tt [] [lit "generate"] tt);
    reflexivity.
Defined.

(** ** The benchmark simulator: the report *)

Lemma benchmarkResults_cons (random : nat -> number) (original_code : jsstring)
    (test_iterations : number) (v : CodeVariant.t) (vs : list CodeVariant.t)
    (w : World) :
  benchmarkResults random original_code test_iterations (v :: vs) w
  = (fst (benchmarkVariant random original_code test_iterations v w)
       :: fst (benchmarkResults random original_code test_iterations vs
                 {| draws := S (draws w) |}),
     snd (benchmarkResults random original_code test_iterations vs
            {| draws := S (draws w) |})).
Proof.
  unfold benchmarkResults. cbn [map_st].
  unfold benchmarkVariant at 1. unfold Math_random. cbn [fst snd].
  destruct (map_st _ vs _) as [ys w2]. reflexivity.
Qed.

(** What the handler returns for a request with at least one variant. *)
Lemma benchmarkPerformance_report (random : nat -> number) (now : jsstring)
    (request : PerformanceBenchmarkRequest.t) (w : World) :
  PerformanceBenchmarkRequest.optimized_variants request <> [] ->
  let test_iterations :=
    match PerformanceBenchmarkRequest.test_iterations request with
    | Some n => n
    | None => 1000%Q
    end in
  let run :=
    benchmarkResults random
      (PerformanceBenchmarkRequest.original_code request) test_iterations
      (PerformanceBenchmarkRequest.optimized_variants request) w in
  exists x xs report,
    fst run = x :: xs
    /\ benchmarkPerformance random now request w
       = (snd run, Return (text_response report))
    /\ BenchmarkReport.variant_results report = x :: xs
    /\ BenchmarkReport.best_variant report = fold_left better xs x
    /\ PerformanceSummary.total_variants_tested
         (BenchmarkReport.performance_summary report)
       = List.length (PerformanceBenchmarkRequest.optimized_variants request)
    /\ PerformanceSummary.best_improvement
         (BenchmarkReport.performance_summary report)
       = BenchmarkResult.improvement_percentage (fold_left better xs x)
    /\ PerformanceSummary.average_improvement
         (BenchmarkReport.performance_summary report)
       = (fold_left
            (fun sum r => (sum + BenchmarkResult.improvement_percentage r)%Q)
            (x :: xs) 0%Q
          / of_nat (List.length (x :: xs)))%Q.
Proof.
  intros Hne test_iterations run. subst run.
  unfold benchmarkPerformance. fold test_iterations.
  pose proof (benchmarkResults_length random
                (PerformanceBenchmarkRequest.original_code request)
                test_iterations
                (PerformanceBenchmarkRequest.optimized_variants request) w)
    as Hlen.
  destruct (benchmarkResults random _ test_iterations _ w) as [results w'].
  cbn [fst snd] in *.
  destruct results as [|x xs].
  - exfalso. apply Hne.
    destruct (PerformanceBenchmarkRequest.optimized_variants request);
      [reflexivity | discriminate Hlen].
  - exists x, xs. eexists. split; [reflexivity|].
    cbn [reduce]. split; [reflexivity|].
    cbn [BenchmarkReport.variant_results BenchmarkReport.best_variant
         BenchmarkReport.performance_summary
         PerformanceSummary.total_variants_tested
         PerformanceSummary.best_improvement
         PerformanceSummary.average_improvement].
    repeat (split; [reflexivity|]). reflexivity.
Qed.

Lemma benchmarkResults_draws (random : nat -> number) (original_code : jsstring)
    (test_iterations : number) (variants : list CodeVariant.t) :
  forall w : World,
    snd (benchmarkResults random original_code test_iterations variants w)
    = {| draws := draws w + List.length variants |}.
Proof.
  induction variants as [|v vs IH]; intros w.
  - destruct w as [n]. simpl. now rewrite Nat.add_0_r.
  - rewrite benchmarkResults_cons. cbn [snd]. rewrite IH.
    cbn [draws List.length]. f_equal. lia.
Qed.

(** X3.  A call of [benchmark_performance] asks the random source for exactly
    one number per variant, whether it ends with a report or (no variants)
    with an exception. *)
Theorem benchmark_draws_one_number_per_variant :
  forall (random : nat -> number) (now : jsstring)
         (request : PerformanceBenchmarkRequest.t) (w : World),
    fst (benchmarkPerformance random now request w)
    = {| draws := draws w
                  + List.length
                      (PerformanceBenchmarkRequest.optimized_variants request) |}.
Proof.
  intros random now request w. unfold benchmarkPerformance.
  set (ti := match PerformanceBenchmarkRequest.test_iterations request with
             | Some n => n
             | None => 1000%Q
             end).
  pose proof (benchmarkResults_draws random
                (PerformanceBenchmarkRequest.original_code request) ti
                (PerformanceBenchmarkRequest.optimized_variants request) w)
    as H.
  destruct (benchmarkResults random _ ti _ w) as [results w'].
  cbn [snd] in H. destruct (reduce better results); exact H.
Qed.

Lemma benchmarkResults_names (random : nat -> number) (original_code : jsstring)
    (test_iterations : number) (variants : list CodeVariant.t) :
  forall w : World,
    map (fun r => (BenchmarkResult.variant_name r,
                   BenchmarkResult.variant_description r,
                   BenchmarkResult.complexity_score r))
        (fst (benchmarkResults random original_code test_iterations variants w))
    = map (fun v => (CodeVariant.name v, CodeVariant.description v,
                     estimateComplexity (CodeVariant.code v)))
          variants.
Proof.
  induction variants as [|v vs IH]; intros w; [reflexivity|].
  rewrite benchmarkResults_cons. cbn [fst map]. rewrite IH.
  unfold benchmarkVariant, Math_random. reflexivity.
Qed.

(** X4.  The report lists one result per variant, in the order of the
    request, each carrying the name and description of its variant and the
    complexity estimate of that variant's code; [total_variants_tested] is
    their number. *)
Theorem variant_results_follow_the_request :
  forall (random : nat -> number) (now : jsstring)
         (request : PerformanceBenchmarkRequest.t) (w : World),
    PerformanceBenchmarkRequest.optimized_variants request <> [] ->
    exists w' report,
      benchmarkPerformance random now request w
        = (w', Return (text_response report))
      /\ map (fun r => (BenchmarkResult.variant_name r,
                        BenchmarkResult.variant_description r,
                        BenchmarkResult.complexity_score r))
             (BenchmarkReport.variant_results report)
         = map (fun v => (CodeVariant.name v, CodeVariant.description v,
                          estimateComplexity (CodeVariant.code v)))
               (PerformanceBenchmarkRequest.optimized_variants request)
      /\ PerformanceSummary.total_variants_tested
           (BenchmarkReport.performance_summary report)
         = List.length (BenchmarkReport.variant_results report).
Proof.
  intros random now request w Hne.
  destruct (benchmarkPerformance_report random now request w Hne)
    as (x & xs & report & Hrun & Hret & Hres & _ & Htot & _).
  eexists. exists report. split; [exact Hret|].
  rewrite Hres, <- Hrun. split.
  - apply benchmarkResults_names.
  - rewrite Htot. symmetry. apply benchmarkResults_length.
Qed.

Lemma variant_results_follow_the_request_witness :
  exists w' report,
    benchmarkPerformance (fun _ => 0.5%Q) (lit "2024-01-01") two_variants
                         {| draws := 0 |}
      = (w', Return (text_response report))
    /\ map (fun r => (BenchmarkResult.variant_name r,
                      BenchmarkResult.variant_description r,
                      BenchmarkResult.complexity_score r))
           (BenchmarkReport.variant_results report)
       = map (fun v => (CodeVariant.name v, CodeVariant.description v,
                        estimateComplexity (CodeVariant.code v)))
             (PerformanceBenchmarkRequest.optimized_variants two_variants)
    /\ PerformanceSummary.total_variants_tested
         (BenchmarkReport.performance_summary report)
       = List.length (BenchmarkReport.variant_results report).
Proof.
  apply (variant_results_follow_the_request (fun _ => 0.5%Q) (lit "2024-01-01")
                                            two_variants {| draws := 0 |}).
  simpl. discriminate.
Defined.

(** ** The benchmark simulator: the best variant *)

Lemma fold_left_better_first_max (l : list BenchmarkResult.t) :
  forall x,
    exists pre post,
      x :: l = pre ++ fold_left better l x :: post
      /\ (forall r, In r pre ->
            (BenchmarkResult.improvement_percentage r
             < BenchmarkResult.improvement_percentage (fold_left better l x))%Q)
      /\ (forall r, In r post ->
            (BenchmarkResult.improvement_percentage r
             <= BenchmarkResult.improvement_percentage (fold_left better l x))%Q).
Proof.
  induction l as [|y l IH]; intros x.
  - exists [], []. simpl. repeat split; intros r [].
  - cbn [fold_left]. unfold better at 2 4 6.
    destruct (gt (BenchmarkResult.improvement_percentage y)
                 (BenchmarkResult.improvement_percentage x)) eqn:E.
    + apply gt_spec in E.
      destruct (IH y) as (pre & post & Heq & Hpre & Hpost).
      exists (x :: pre), post. split; [simpl; now rewrite Heq|].
      split; [|exact Hpost].
      intros r [<-|Hr]; [|now apply Hpre].
      assert (Hy : In y (pre ++ fold_left better l y :: post))
        by (rewrite <- Heq; now left).
      apply in_app_or in Hy. destruct Hy as [Hy|[Hy|Hy]].
      * specialize (Hpre _ Hy). lra.
      * rewrite Hy. exact E.
      * specialize (Hpost _ Hy). lra.
    + assert (Hle : (BenchmarkResult.improvement_percentage y
                     <= BenchmarkResult.improvement_percentage x)%Q).
      { apply Qnot_lt_le. intros Hlt. apply gt_spec in Hlt. congruence. }
      destruct (IH x) as (pre & post & Heq & Hpre & Hpost).
      remember (fold_left better l x) as b eqn:Hb. clear Hb.
      destruct pre as [|x' pre]; simpl in Heq; injection Heq as Hx Hl.
      * subst b post.
        exists [], (y :: l). split; [reflexivity|]. split; [intros r []|].
        intros r [<-|Hr]; [exact Hle | now apply Hpost].
      * subst x' l.
        exists (x :: y :: pre), post. split; [reflexivity|].
        split; [|exact Hpost].
        assert (Hxb := Hpre x (or_introl eq_refl)).
        intros r [<-|[<-|Hr]].
        -- exact Hxb.
        -- lra.
        -- apply Hpre. now right.
Qed.

(** X5.  The best variant of a report is the first result with the largest
    improvement: every result before it improves strictly less, no result
    after it improves more. *)
Theorem best_variant_is_first_maximum :
  forall (random : nat -> number) (now : jsstring)
         (request : PerformanceBenchmarkRequest.t) (w : World),
    PerformanceBenchmarkRequest.optimized_variants request <> [] ->
    exists w' report pre post,
      benchmarkPerformance random now request w
        = (w', Return (text_response report))
      /\ BenchmarkReport.variant_results report
         = pre ++ BenchmarkReport.best_variant report :: post
      /\ (forall r, In r pre ->
            (BenchmarkResult.improvement_percentage r
             < BenchmarkResult.improvement_percentage
                 (BenchmarkReport.best_variant report))%Q)
      /\ (forall r, In r post ->
            (BenchmarkResult.improvement_percentage r
             <= BenchmarkResult.improvement_percentage
                  (BenchmarkReport.best_variant report))%Q)
      /\ PerformanceSummary.best_improvement
           (BenchmarkReport.performance_summary report)
         = BenchmarkResult.improvement_percentage
             (BenchmarkReport.best_variant report).
Proof.
  intros random now request w Hne.
  destruct (benchmarkPerformance_report random now request w Hne)
    as (x & xs & report & _ & Hret & Hres & Hbest & _ & Himp & _).
  destruct (fold_left_better_first_max xs x)
    as (pre & post & Heq & Hpre & Hpost).
  eexists. exists report, pre, post.
  split; [exact Hret|]. rewrite Hres, Hbest, Himp.
  repeat split; assumption.
Qed.

Lemma best_variant_is_first_maximum_witness :
  exists w' report pre post,
    benchmarkPerformance (fun _ => 0.5%Q) (lit "2024-01-01") tied_variants
                         {| draws := 0 |}
      = (w', Return (text_response report))
    /\ BenchmarkReport.variant_results report
       = pre ++ BenchmarkReport.best_variant report :: post
    /\ (forall r, In r pre ->
          (BenchmarkResult.improvement_percentage r
           < BenchmarkResult.improvement_percentage
               (BenchmarkReport.best_variant report))%Q)
    /\ (forall r, In r post ->
          (BenchmarkResult.improvement_percentage r
           <= BenchmarkResult.improvement_percentage
                (BenchmarkReport.best_variant report))%Q)
    /\ PerformanceSummary.best_improvement
         (BenchmarkReport.performance_summary report)
       = BenchmarkResult.improvement_percentage
           (BenchmarkReport.best_variant report).
Proof.
  apply (best_variant_is_first_maximum (fun _ => 0.5%Q) (lit "2024-01-01")
                                       tied_variants {| draws := 0 |}).
  simpl. discriminate.
Defined.

(** With equal improvements the earlier variant wins. *)
Example tie_goes_to_the_first_variant :
  match benchmarkPerformance (fun _ => 0.5%Q) (lit "2024-01-01") tied_variants
                             {| draws := 0 |} with
  | (_, Return r) =>
      map (fun b => BenchmarkResult.variant_name
                      (BenchmarkReport.best_variant (TextContent.text b)))
          (ToolResponse.content r)
  | (_, Throw _) => []
  end = [lit "first"].
Proof. vm_compute. reflexivity. Qed.

(** ** The benchmark simulator: how the numbers depend on the estimates *)

Lemma of_nat_le (a b : nat) : a <= b -> (of_nat a <= of_nat b)%Q.
Proof.
  intros H. unfold of_nat. rewrite <- Zle_Qle. lia.
Qed.

Lemma of_nat_mul (a b : nat) : (of_nat (a * b) == of_nat a * of_nat b)%Q.
Proof.
  unfold of_nat. rewrite Nat2Z.inj_mul, inject_Z_mult. reflexivity.
Qed.

Lemma of_nat_S (n : nat) : (of_nat (S n) == of_nat n + 1)%Q.
Proof.
  unfold of_nat. rewrite Nat2Z.inj_succ. unfold Z.succ.
  rewrite inject_Z_plus. reflexivity.
Qed.

(** The simulated time, with the improvement factor spelled out. *)
Lemma execution_time_formula (random : nat -> number) (original_code : jsstring)
    (test_iterations : number) (variant : CodeVariant.t) (w : World) :
  (BenchmarkResult.execution_time_ms
     (fst (benchmarkVariant random original_code test_iterations variant w))
   * of_nat (estimateComplexity original_code)
   == of_nat (estimateComplexity (CodeVariant.code variant))
      * (0.8 + random (draws w) * 0.4))%Q.
Proof.
  unfold benchmarkVariant, Math_random.
  cbn [fst BenchmarkResult.execution_time_ms].
  rewrite improvementFactor_quotient.
  pose proof (of_nat_ge_1 _ (estimateComplexity_ge_1 original_code)) as Hb.
  pose proof (of_nat_ge_1 _ (estimateComplexity_ge_1 (CodeVariant.code variant)))
    as Hv.
  field. split; lra.
Qed.

Lemma improvement_formula (random : nat -> number) (original_code : jsstring)
    (test_iterations : number) (variant : CodeVariant.t) (w : World) :
  BenchmarkResult.improvement_percentage
    (fst (benchmarkVariant random original_code test_iterations variant w))
  = Qmax (-20)
         ((1 - BenchmarkResult.execution_time_ms
                 (fst (benchmarkVariant random original_code test_iterations
                                        variant w))) * 100)%Q.
Proof. reflexivity. Qed.

(** X6.  With a draw in [0,1): a variant whose complexity estimate is at most
    5/6 of the original's is never reported with a negative improvement, and
    one whose estimate is at least 5/4 of the original's never with a
    positive one. *)
Theorem improvement_sign_follows_the_estimates :
  forall (random : nat -> number) (original_code : jsstring)
         (test_iterations : number) (variant : CodeVariant.t) (w : World),
    unit_interval (random (draws w)) ->
    let r := fst (benchmarkVariant random original_code test_iterations
                                   variant w) in
    (6 * estimateComplexity (CodeVariant.code variant)
     <= 5 * estimateComplexity original_code ->
     (0 <= BenchmarkResult.improvement_percentage r)%Q)
    /\ (5 * estimateComplexity original_code
        <= 4 * estimateComplexity (CodeVariant.code variant) ->
        (BenchmarkResult.improvement_percentage r <= 0)%Q).
Proof.
  intros random original_code test_iterations variant w [Hu0 Hu1] r.
  subst r. rewrite improvement_formula.
  pose proof (execution_time_formula random original_code test_iterations
                                     variant w) as Ht.
  set (t := BenchmarkResult.execution_time_ms _) in *.
  set (u := random (draws w)) in *.
  pose proof (of_nat_ge_1 _ (estimateComplexity_ge_1 original_code)) as Hb.
  pose proof (of_nat_ge_1 _ (estimateComplexity_ge_1 (CodeVariant.code variant)))
    as Hv.
  split; intros H; apply of_nat_le in H; rewrite !of_nat_mul in H;
    change (of_nat 6) with 6%Q in H; change (of_nat 5) with 5%Q in H;
    change (of_nat 4) with 4%Q in H;
    set (B := of_nat (estimateComplexity original_code)) in *;
    set (V := of_nat (estimateComplexity (CodeVariant.code variant))) in *.
  - assert (Hlt : (t < 1)%Q).
    { apply Qnot_le_lt. intros Hge.
      assert ((B <= t * B)%Q) by nra.
      assert ((V * (0.8 + u * 0.4) < B)%Q) by nra.
      lra. }
    destruct (Q.max_spec (-20) ((1 - t) * 100)) as [[L E]|[L E]]; lra.
  - assert (Hge : (1 <= t)%Q).
    { apply Qnot_lt_le. intros Hlt.
      assert ((t * B < B)%Q) by nra.
      assert ((B <= V * (0.8 + u * 0.4))%Q) by nra.
      lra. }
    destruct (Q.max_spec (-20) ((1 - t) * 100)) as [[L E]|[L E]]; lra.
Qed.

Lemma improvement_sign_follows_the_estimates_witness :
  (0 <= BenchmarkResult.improvement_percentage
         (fst (benchmarkVariant (fun _ => 0.5%Q) nested_loop_code 10%Q
                 {| CodeVariant.name := lit "single loop";
                    CodeVariant.code := lit "for (;;) {}";
                    CodeVariant.description := lit "one pass" |}
                 {| draws := 0 |})))%Q.
Proof.
  apply (improvement_sign_follows_the_estimates
           (fun _ => 0.5%Q) nested_loop_code 10%Q
           {| CodeVariant.name := lit "single loop";
              CodeVariant.code := lit "for (;;) {}";
              CodeVariant.description := lit "one pass" |}
           {| draws := 0 |}).
  - unfold unit_interval, Qle, Qlt. simpl. lia.
  - vm_compute. lia.
Defined.

Lemma benchmarkResults_Forall2 (random : nat -> number) (original_code : jsstring)
    (test_iterations : number)
    (P : CodeVariant.t -> BenchmarkResult.t -> Prop) :
  (forall v w,
     P v (fst (benchmarkVariant random original_code test_iterations v w))) ->
  forall (variants : list CodeVariant.t) (w : World),
    Forall2 P variants
      (fst (benchmarkResults random original_code test_iterations variants w)).
Proof.
  intros HP. induction variants as [|v vs IH]; intros w.
  - constructor.
  - rewrite benchmarkResults_cons. cbn [fst]. constructor; [apply HP | apply IH].
Qed.

Lemma benchmarkResults_Forall (random : nat -> number) (original_code : jsstring)
    (test_iterations : number) (P : BenchmarkResult.t -> Prop) :
  (forall v w,
     P (fst (benchmarkVariant random original_code test_iterations v w))) ->
  forall (variants : list CodeVariant.t) (w : World),
    Forall P
      (fst (benchmarkResults random original_code test_iterations variants w)).
Proof.
  intros HP. induction variants as [|v vs IH]; intros w.
  - constructor.
  - rewrite benchmarkResults_cons. cbn [fst]. constructor; [apply HP | apply IH].
Qed.

Lemma memory_usage_range (random : nat -> number) (original_code : jsstring)
    (test_iterations : number) (variant : CodeVariant.t) (w : World) :
  let r := fst (benchmarkVariant random original_code test_iterations
                                 variant w) in
  (0.5 <= BenchmarkResult.memory_usage_mb r)%Q
  /\ (BenchmarkResult.memory_usage_mb r <= 10)%Q
  /\ (estimateComplexity original_code
      <= estimateComplexity (CodeVariant.code variant) ->
      (BenchmarkResult.memory_usage_mb r == 10)%Q).
Proof.
  unfold benchmarkVariant, Math_random.
  cbn [fst BenchmarkResult.memory_usage_mb]. unfold Math_max.
  rewrite improvementFactor_quotient.
  pose proof (of_nat_ge_1 _ (estimateComplexity_ge_1 original_code)) as Hb.
  pose proof (of_nat_ge_1 _ (estimateComplexity_ge_1 (CodeVariant.code variant)))
    as Hv.
  set (B := of_nat (estimateComplexity original_code)) in *.
  set (V := of_nat (estimateComplexity (CodeVariant.code variant))) in *.
  set (f := (B / V)%Q).
  destruct (Q.max_spec 0 ((f - 1) * 30)) as [[L1 E1]|[L1 E1]];
    destruct (Q.max_spec 0.5 (10 - Qmax 0 ((f - 1) * 30)))
      as [[L2 E2]|[L2 E2]];
    (split; [lra|]); (split; [lra|]); intros H; apply of_nat_le in H;
    fold B V in H;
    assert (Hf : (f <= 1)%Q) by (apply Qle_shift_div_r; lra); lra.
Qed.

(** X7.  The memory figure of every result lies between 0.5 and 10, and it
    is 10 for every variant whose complexity estimate is not below the
    original's. *)
Theorem memory_usage_is_bounded :
  forall (random : nat -> number) (original_code : jsstring)
         (test_iterations : number) (variants : list CodeVariant.t) (w : World),
    Forall2
      (fun v r =>
         (0.5 <= BenchmarkResult.memory_usage_mb r)%Q
         /\ (BenchmarkResult.memory_usage_mb r <= 10)%Q
         /\ (estimateComplexity original_code
             <= estimateComplexity (CodeVariant.code v) ->
             (BenchmarkResult.memory_usage_mb r == 10)%Q))
      variants
      (fst (benchmarkResults random original_code test_iterations variants w)).
Proof.
  intros random original_code test_iterations variants w.
  apply benchmarkResults_Forall2.
  intros v w'. apply memory_usage_range.
Qed.

Lemma memory_usage_is_bounded_witness :
  Forall2
    (fun v r =>
       (0.5 <= BenchmarkResult.memory_usage_mb r)%Q
       /\ (BenchmarkResult.memory_usage_mb r <= 10)%Q
       /\ (estimateComplexity nested_loop_code
           <= estimateComplexity (CodeVariant.code v) ->
           (BenchmarkResult.memory_usage_mb r == 10)%Q))
    (PerformanceBenchmarkRequest.optimized_variants two_variants)
    (fst (benchmarkResults (fun _ => 0.5%Q) nested_loop_code 10%Q
            (PerformanceBenchmarkRequest.optimized_variants two_variants)
            {| draws := 0 |})).
Proof.
  exact (memory_usage_is_bounded
           (fun _ => 0.5%Q) nested_loop_code 10%Q
           (PerformanceBenchmarkRequest.optimized_variants two_variants)
           {| draws := 0 |}).
Defined.

(** X8.  Under one and the same draw, a variant with the smaller complexity
    estimate is never reported slower, with less improvement or with more
    memory than one with the larger estimate. *)
Theorem simulation_is_monotone_in_the_estimate :
  forall (random : nat -> number) (original_code : jsstring)
         (test_iterations : number) (v1 v2 : CodeVariant.t) (w1 w2 : World),
    unit_interval (random (draws w1)) ->
    random (draws w2) = random (draws w1) ->
    estimateComplexity (CodeVariant.code v1)
      <= estimateComplexity (CodeVariant.code v2) ->
    let r1 := fst (benchmarkVariant random original_code test_iterations v1 w1) in
    let r2 := fst (benchmarkVariant random original_code test_iterations v2 w2) in
    (BenchmarkResult.execution_time_ms r1
       <= BenchmarkResult.execution_time_ms r2)%Q
    /\ (BenchmarkResult.improvement_percentage r2
          <= BenchmarkResult.improvement_percentage r1)%Q
    /\ (BenchmarkResult.memory_usage_mb r1
          <= BenchmarkResult.memory_usage_mb r2)%Q.
Proof.
  intros random original_code test_iterations v1 v2 w1 w2 [Hu0 Hu1] Hsame Hle
         r1 r2.
  assert (Ht : (BenchmarkResult.execution_time_ms r1
                <= BenchmarkResult.execution_time_ms r2)%Q).
  { subst r1 r2.
    pose proof (execution_time_formula random original_code test_iterations
                                       v1 w1) as H1.
    pose proof (execution_time_formula random original_code test_iterations
                                       v2 w2) as H2.
    rewrite Hsame in H2.
    set (t1 := BenchmarkResult.execution_time_ms
                 (fst (benchmarkVariant random original_code test_iterations
                                        v1 w1))) in *.
    set (t2 := BenchmarkResult.execution_time_ms
                 (fst (benchmarkVariant random original_code test_iterations
                                        v2 w2))) in *.
    set (u := random (draws w1)) in *.
    pose proof (of_nat_ge_1 _ (estimateComplexity_ge_1 original_code)) as Hb.
    apply of_nat_le in Hle.
    pose proof (of_nat_ge_1 _ (estimateComplexity_ge_1 (CodeVariant.code v1)))
      as Hv1.
    set (B := of_nat (estimateComplexity original_code)) in *.
    set (V1 := of_nat (estimateComplexity (CodeVariant.code v1))) in *.
    set (V2 := of_nat (estimateComplexity (CodeVariant.code v2))) in *.
    apply Qnot_lt_le. intros Hlt.
    assert ((t2 * B < t1 * B)%Q) by nra.
    assert ((V1 * (0.8 + u * 0.4) <= V2 * (0.8 + u * 0.4))%Q) by nra.
    lra. }
  split; [exact Ht|]. split.
  - subst r1 r2. rewrite !improvement_formula.
    set (t1 := BenchmarkResult.execution_time_ms
                 (fst (benchmarkVariant random original_code test_iterations
                                        v1 w1))) in *.
    set (t2 := BenchmarkResult.execution_time_ms
                 (fst (benchmarkVariant random original_code test_iterations
                                        v2 w2))) in *.
    apply Q.max_le_compat_l. lra.
  - subst r1 r2. unfold benchmarkVariant, Math_random.
    cbn [fst BenchmarkResult.memory_usage_mb]. unfold Math_max.
    rewrite !improvementFactor_quotient.
    pose proof (of_nat_ge_1 _ (estimateComplexity_ge_1 original_code)) as Hb.
    apply of_nat_le in Hle.
    pose proof (of_nat_ge_1 _ (estimateComplexity_ge_1 (CodeVariant.code v1)))
      as Hv1.
    set (B := of_nat (estimateComplexity original_code)) in *.
    set (V1 := of_nat (estimateComplexity (CodeVariant.code v1))) in *.
    set (V2 := of_nat (estimateComplexity (CodeVariant.code v2))) in *.
    assert (Hf : (B / V2 <= B / V1)%Q).
    { apply Qle_shift_div_l; [lra|].
      assert (E : (B / V2 * V1 == B * (V1 / V2))%Q) by (field; lra).
      rewrite E.
      assert ((V1 / V2 <= 1)%Q) by (apply Qle_shift_div_r; lra).
      assert ((0 <= V1 / V2)%Q) by (apply Qle_shift_div_l; lra).
      nra. }
    set (f1 := (B / V1)%Q) in *. set (f2 := (B / V2)%Q) in *.
    apply Q.max_le_compat_l.
    assert ((Qmax 0 ((f2 - 1) * 30) <= Qmax 0 ((f1 - 1) * 30))%Q)
      by (apply Q.max_le_compat_l; lra).
    lra.
Qed.

Lemma simulation_is_monotone_in_the_estimate_witness :
  let r1 := fst (benchmarkVariant (fun _ => 0.5%Q) nested_loop_code 10%Q
                   {| CodeVariant.name := lit "single loop";
                      CodeVariant.code := lit "for (;;) {}";
                      CodeVariant.description := lit "one pass" |}
                   {| draws := 0 |}) in
  let r2 := fst (benchmarkVariant (fun _ => 0.5%Q) nested_loop_code 10%Q
                   {| CodeVariant.name := lit "unchanged";
                      CodeVariant.code := nested_loop_code;
                      CodeVariant.description := lit "as before" |}
                   {| draws := 1 |}) in
  (BenchmarkResult.execution_time_ms r1
     <= BenchmarkResult.execution_time_ms r2)%Q
  /\ (BenchmarkResult.improvement_percentage r2
        <= BenchmarkResult.improvement_percentage r1)%Q
  /\ (BenchmarkResult.memory_usage_mb r1
        <= BenchmarkResult.memory_usage_mb r2)%Q.
Proof.
  apply (simulation_is_monotone_in_the_estimate
           (fun _ => 0.5%Q) nested_loop_code 10%Q
           {| CodeVariant.name := lit "single loop";
              CodeVariant.code := lit "for (;;) {}";
              CodeVariant.description := lit "one pass" |}
           {| CodeVariant.name := lit "unchanged";
              CodeVariant.code := nested_loop_code;
              CodeVariant.description := lit "as before" |}
           {| draws := 0 |} {| draws := 1 |}).
  - unfold unit_interval, Qle, Qlt. simpl. lia.
  - reflexivity.
  - vm_compute. lia.
Defined.

(** ** The benchmark simulator: the average *)

Lemma improvement_sum_bounds (lo hi : number) (l : list BenchmarkResult.t) :
  (forall r, In r l ->
     (lo <= BenchmarkResult.improvement_percentage r)%Q
     /\ (BenchmarkResult.improvement_percentage r <= hi)%Q) ->
  forall acc : number,
    (acc + of_nat (List.length l) * lo
     <= fold_left (fun sum r => (sum + BenchmarkResult.improvement_percentage r)%Q)
                  l acc)%Q
    /\ (fold_left (fun sum r => (sum + BenchmarkResult.improvement_percentage r)%Q)
                  l acc
        <= acc + of_nat (List.length l) * hi)%Q.
Proof.
  induction l as [|x l IH]; intros H acc.
  - simpl. change (of_nat 0) with 0%Q. split; lra.
  - cbn [fold_left List.length].
    destruct (H x (or_introl eq_refl)) as [Hlo Hhi].
    destruct (IH (fun r Hr => H r (or_intror Hr))
                 (acc + BenchmarkResult.improvement_percentage x)%Q)
      as [IHlo IHhi].
    pose proof (of_nat_S (List.length l)) as HS.
    set (n := of_nat (List.length l)) in *.
    set (n' := of_nat (S (List.length l))) in *.
    set (s := fold_left _ l _) in *.
    split; nra.
Qed.

(** X9.  For a request with at least one variant and draws in [0,1), the
    reported average improvement is at least -20 and below 100. *)
Theorem average_improvement_range :
  forall (random : nat -> number) (now : jsstring)
         (request : PerformanceBenchmarkRequest.t) (w : World),
    (forall n, unit_interval (random n)) ->
    PerformanceBenchmarkRequest.optimized_variants request <> [] ->
    exists w' report,
      benchmarkPerformance random now request w
        = (w', Return (text_response report))
      /\ (-20 <= PerformanceSummary.average_improvement
                   (BenchmarkReport.performance_summary report))%Q
      /\ (PerformanceSummary.average_improvement
            (BenchmarkReport.performance_summary report) < 100)%Q.
Proof.
  intros random now request w Hrandom Hne.
  destruct (benchmarkPerformance_report random now request w Hne)
    as (x & xs & report & Hrun & Hret & _ & _ & _ & _ & Havg).
  eexists. exists report. split; [exact Hret|].
  rewrite Havg.
  assert (Hrange : Forall improvement_in_range (x :: xs)).
  { rewrite <- Hrun. now apply benchmarkResults_range. }
  rewrite Forall_forall in Hrange.
  destruct (fold_left_better_first_max xs x)
    as (pre & post & Heq & Hpre & Hpost).
  set (best := fold_left better xs x) in *.
  assert (Hbest : (BenchmarkResult.improvement_percentage best < 100)%Q).
  { apply Hrange. rewrite Heq. apply in_or_app. right. now left. }
  assert (Hall : forall r, In r (x :: xs) ->
            (-20 <= BenchmarkResult.improvement_percentage r)%Q
            /\ (BenchmarkResult.improvement_percentage r
                <= BenchmarkResult.improvement_percentage best)%Q).
  { intros r Hr. split; [now apply Hrange|].
    rewrite Heq in Hr. apply in_app_or in Hr. destruct Hr as [Hr|[Hr|Hr]].
    - apply Qlt_le_weak. now apply Hpre.
    - rewrite Hr. apply Qle_refl.
    - now apply Hpost. }
  destruct (improvement_sum_bounds (-20)%Q
              (BenchmarkResult.improvement_percentage best) (x :: xs) Hall 0%Q)
    as [Hlo Hhi].
  assert (HN : (1 <= of_nat (List.length (x :: xs)))%Q)
    by (apply of_nat_ge_1; simpl; lia).
  set (N := of_nat (List.length (x :: xs))) in *.
  set (s := fold_left _ (x :: xs) 0%Q) in *.
  set (b := BenchmarkResult.improvement_percentage best) in *.
  split.
  - apply Qle_shift_div_l; lra.
  - apply Qlt_shift_div_r; [lra|]. nra.
Qed.

Lemma average_improvement_range_witness :
  exists w' report,
    benchmarkPerformance (fun _ => 0.5%Q) (lit "2024-01-01") two_variants
                         {| draws := 0 |}
      = (w', Return (text_response report))
    /\ (-20 <= PerformanceSummary.average_improvement
                 (BenchmarkReport.performance_summary report))%Q
    /\ (PerformanceSummary.average_improvement
          (BenchmarkReport.performance_summary report) < 100)%Q.
Proof.
  apply (average_improvement_range (fun _ => 0.5%Q) (lit "2024-01-01")
                                   two_variants {| draws := 0 |}).
  - intros n. unfold unit_interval, Qle, Qlt. simpl. lia.
  - simpl. discriminate.
Defined.

(** ** The pattern detector: the sorted array *)

Section SortFacts.

Variable A : Type.
Variable cmp : A -> A -> number.

Lemma insert_Permutation (x : A) (l : list A) :
  Permutation (insert cmp x l) (x :: l).
Proof.
  induction l as [|y l IH]; simpl; [reflexivity|].
  destruct (gt (cmp x y) 0%Q); [|reflexivity].
  rewrite IH. apply perm_swap.
Qed.

Lemma sort_Permutation (l : list A) : Permutation (sort cmp l) l.
Proof.
  induction l as [|x l IH]; simpl; [reflexivity|].
  rewrite insert_Permutation. now constructor.
Qed.

(** A comparator that orders by a key, largest first. *)
Variable key : A -> number.
Hypothesis cmp_key : forall a b, gt (cmp a b) 0%Q = true <-> (key a < key b)%Q.

Lemma insert_descending (x : A) (l : list A) :
  StronglySorted (descending key) l ->
  StronglySorted (descending key) (insert cmp x l).
Proof.
  induction l as [|y l IH]; intros Hs; simpl.
  - repeat constructor.
  - inversion Hs as [|? ? Hl Hy]; subst.
    destruct (gt (cmp x y) 0%Q) eqn:E.
    + apply cmp_key in E. constructor; [now apply IH|].
      apply Forall_forall. intros z Hz.
      apply (Permutation_in _ (insert_Permutation x l)) in Hz.
      destruct Hz as [<-|Hz].
      * unfold descending. lra.
      * rewrite Forall_forall in Hy. now apply Hy.
    + assert (Hle : (key y <= key x)%Q).
      { apply Qnot_lt_le. intros Hlt. apply cmp_key in Hlt. congruence. }
      constructor; [exact Hs|]. constructor; [exact Hle|].
      rewrite Forall_forall in Hy |- *. intros z Hz.
      specialize (Hy z Hz). unfold descending in *. lra.
Qed.

Lemma sort_descending (l : list A) :
  StronglySorted (descending key) (sort cmp l).
Proof.
  induction l as [|x l IH]; simpl; [constructor | now apply insert_descending].
Qed.

(** The sort is stable: among the entries of one key the order is kept. *)
Lemma insert_stable (q : number) (x : A) (l : list A) :
  filter (fun a => Qeq_bool (key a) q) (insert cmp x l)
  = filter (fun a => Qeq_bool (key a) q) (x :: l).
Proof.
  induction l as [|y l IH]; [reflexivity|].
  cbn [insert]. destruct (gt (cmp x y) 0%Q) eqn:E; [|reflexivity].
  apply cmp_key in E.
  cbn [filter] in *. rewrite IH.
  destruct (Qeq_bool (key x) q) eqn:Ex; [|reflexivity].
  destruct (Qeq_bool (key y) q) eqn:Ey; [|reflexivity].
  apply Qeq_bool_iff in Ex, Ey. lra.
Qed.

Lemma sort_stable (q : number) (l : list A) :
  filter (fun a => Qeq_bool (key a) q) (sort cmp l)
  = filter (fun a => Qeq_bool (key a) q) l.
Proof.
  induction l as [|x l IH]; [reflexivity|].
  cbn [sort fold_right]. fold (sort cmp l). rewrite insert_stable.
  cbn [filter]. now rewrite IH.
Qed.

End SortFacts.

Lemma byScoreDescending_key (a b : PatternResult.t) :
  gt (byScoreDescending a b) 0%Q = true
  <-> (PatternResult.applicability_score a
       < PatternResult.applicability_score b)%Q.
Proof.
  rewrite gt_spec. unfold byScoreDescending. split; intros H; lra.
Qed.

Lemma StronglySorted_app_order (A : Type) (R : A -> A -> Prop)
    (l1 l2 : list A) :
  StronglySorted R (l1 ++ l2) ->
  forall a b, In a l1 -> In b l2 -> R a b.
Proof.
  induction l1 as [|x l1 IH]; intros Hs a b Ha Hb; [destruct Ha|].
  simpl in Hs. inversion Hs as [|? ? Hl Hx]; subst.
  destruct Ha as [<-|Ha].
  - rewrite Forall_forall in Hx. apply Hx. apply in_or_app. now right.
  - now apply IH.
Qed.

(** The report of the pattern detector, field by field. *)
Lemma detectOptimizationPatterns_report (now : jsstring)
    (request : OptimizationPatternRequest.t) (w : World) :
  let pattern_types :=
    match OptimizationPatternRequest.pattern_types request with
    | Some l => l
    | None => default_pattern_types
    end in
  let sorted :=
    sort byScoreDescending
      (detectedPatterns (OptimizationPatternRequest.code_snippet request)
                        (OptimizationPatternRequest.language request)
                        pattern_types) in
  exists report,
    detectOptimizationPatterns now request w
      = (w, Return (text_response report))
    /\ PatternReport.detected_patterns report = sorted
    /\ PatternReport.pattern_recommendations report
       = map recommendation (firstn 3 sorted)
    /\ PatternReport.mcp_server_confidence report
       = (if 0 <? List.length sorted then lit "high" else lit "medium")
    /\ PatternReport.code_length report
       = List.length (OptimizationPatternRequest.code_snippet request).
Proof.
  intros pattern_types sorted. unfold detectOptimizationPatterns.
  eexists. split; [reflexivity|]. repeat split.
Qed.

(** X10.  [detected_patterns] in the response holds exactly the results that
    passed the threshold (a permutation of them), ordered by falling score;
    results with the same score keep the order of the request. *)
Theorem detected_patterns_are_sorted :
  forall (now : jsstring) (request : OptimizationPatternRequest.t) (w : World),
    let pattern_types :=
      match OptimizationPatternRequest.pattern_types request with
      | Some l => l
      | None => default_pattern_types
      end in
    let passed :=
      detectedPatterns (OptimizationPatternRequest.code_snippet request)
                       (OptimizationPatternRequest.language request)
                       pattern_types in
    exists report,
      detectOptimizationPatterns now request w
        = (w, Return (text_response report))
      /\ Permutation (PatternReport.detected_patterns report) passed
      /\ StronglySorted
           (fun a b => (PatternResult.applicability_score b
                        <= PatternResult.applicability_score a)%Q)
           (PatternReport.detected_patterns report)
      /\ forall q : number,
           filter (fun p => Qeq_bool (PatternResult.applicability_score p) q)
                  (PatternReport.detected_patterns report)
           = filter (fun p => Qeq_bool (PatternResult.applicability_score p) q)
                    passed.
Proof.
  intros now request w pattern_types passed.
  destruct (detectOptimizationPatterns_report now request w)
    as (report & Hret & Hdet & _).
  exists report. split; [exact Hret|]. rewrite Hdet. fold pattern_types passed.
  split; [apply sort_Permutation|]. split.
  - apply (sort_descending _ byScoreDescending
             PatternResult.applicability_score byScoreDescending_key).
  - intros q.
    apply (sort_stable _ byScoreDescending
             PatternResult.applicability_score byScoreDescending_key).
Qed.

(** X11.  [pattern_recommendations] names the first three detected patterns
    (all of them when there are fewer), in order, and no detected pattern
    left out of it scores higher than one that is in it. *)
Theorem recommendations_are_the_top_three :
  forall (now : jsstring) (request : OptimizationPatternRequest.t) (w : World),
    exists report top rest,
      detectOptimizationPatterns now request w
        = (w, Return (text_response report))
      /\ PatternReport.detected_patterns report = top ++ rest
      /\ List.length top
         = Nat.min 3 (List.length (PatternReport.detected_patterns report))
      /\ map Recommendation.pattern
             (PatternReport.pattern_recommendations report)
         = map PatternResult.pattern_name top
      /\ forall a b, In a top -> In b rest ->
           (PatternResult.applicability_score b
            <= PatternResult.applicability_score a)%Q.
Proof.
  intros now request w.
  destruct (detectOptimizationPatterns_report now request w)
    as (report & Hret & Hdet & Hrec & _).
  set (sorted := sort byScoreDescending _) in *.
  exists report, (firstn 3 sorted), (skipn 3 sorted).
  split; [exact Hret|]. rewrite Hdet, Hrec.
  split; [symmetry; apply firstn_skipn|].
  split; [apply length_firstn|].
  split; [rewrite map_map; reflexivity|].
  apply (StronglySorted_app_order _
           (fun a b => (PatternResult.applicability_score b
                        <= PatternResult.applicability_score a)%Q)).
  rewrite firstn_skipn.
  apply (sort_descending _ byScoreDescending
           PatternResult.applicability_score byScoreDescending_key).
Qed.

(** ** The pattern detector: which patterns are detected *)

Lemma passes_threshold (code language pattern : jsstring) :
  gt (Applicability.score (assessPatternApplicability code pattern language))
     0.3%Q = true
  <-> (pattern = lit "dynamic_programming" -> shows_overlap code = true)
      /\ (pattern = lit "caching" -> shows_lookups code = true).
Proof.
  unfold assessPatternApplicability, shows_overlap, shows_lookups.
  destruct (JS.eqb pattern (lit "dynamic_programming")) eqn:Edp.
  - apply eqb_eq in Edp. subst pattern. cbn [Applicability.score].
    destruct (includes code (lit "memo")
              || includes code (lit "return") && includes code (lit "("));
      split.
    + intros _. split; [reflexivity | intros H; discriminate H].
    + intros _. reflexivity.
    + intros H. discriminate H.
    + intros [H _]. discriminate (H eq_refl).
  - assert (Hdp : pattern <> lit "dynamic_programming").
    { intros ->. rewrite eqb_refl in Edp. discriminate Edp. }
    destruct (JS.eqb pattern (lit "caching")) eqn:Ec.
    + apply eqb_eq in Ec. subst pattern. cbn [Applicability.score].
      destruct (includes code (lit "find") || includes code (lit "indexOf"));
        split.
      * intros _. split; [intros H; discriminate H | reflexivity].
      * intros _. reflexivity.
      * intros H. discriminate H.
      * intros [_ H]. discriminate (H eq_refl).
    + assert (Hc : pattern <> lit "caching").
      { intros ->. rewrite eqb_refl in Ec. discriminate Ec. }
      cbn [Applicability.score]. split.
      * intros _. split; intros H; contradiction.
      * intros _. reflexivity.
Qed.

Lemma detected_score (code language pattern : jsstring) :
  gt (Applicability.score (assessPatternApplicability code pattern language))
     0.3%Q = true ->
  Applicability.score (assessPatternApplicability code pattern language)
  = if JS.eqb pattern (lit "dynamic_programming") then 0.8%Q
    else if JS.eqb pattern (lit "caching") then 0.9%Q else 0.5%Q.
Proof.
  unfold assessPatternApplicability.
  destruct (JS.eqb pattern (lit "dynamic_programming")).
  - cbn [Applicability.score].
    destruct (includes code (lit "memo")
              || includes code (lit "return") && includes code (lit "("));
      [reflexivity | intros H; discriminate H].
  - destruct (JS.eqb pattern (lit "caching")); cbn [Applicability.score].
    + destruct (includes code (lit "find") || includes code (lit "indexOf"));
        [reflexivity | intros H; discriminate H].
    + reflexivity.
Qed.

(** X12.  A pattern name appears in [detected_patterns] exactly when it was
    requested and, for "dynamic_programming", the snippet contains "memo" or
    both "return" and "(", and, for "caching", it contains "find" or
    "indexOf"; any other requested name is always detected.  A detected
    result carries the name it was requested under and scores 0.8
    ("dynamic_programming"), 0.9 ("caching") or 0.5 (any other name). *)
Theorem detected_pattern_names :
  forall (now : jsstring) (request : OptimizationPatternRequest.t) (w : World),
    let code := OptimizationPatternRequest.code_snippet request in
    let pattern_types :=
      match OptimizationPatternRequest.pattern_types request with
      | Some l => l
      | None => default_pattern_types
      end in
    exists report,
      detectOptimizationPatterns now request w
        = (w, Return (text_response report))
      /\ (forall pattern,
            In pattern (map PatternResult.pattern_name
                            (PatternReport.detected_patterns report))
            <-> In pattern pattern_types
                /\ (pattern = lit "dynamic_programming" ->
                    shows_overlap code = true)
                /\ (pattern = lit "caching" -> shows_lookups code = true))
      /\ (forall p,
            In p (PatternReport.detected_patterns report) ->
            PatternResult.applicability_score p
            = if JS.eqb (PatternResult.pattern_name p)
                        (lit "dynamic_programming") then 0.8%Q
              else if JS.eqb (PatternResult.pattern_name p) (lit "caching")
                   then 0.9%Q else 0.5%Q).
Proof.
  intros now request w code pattern_types.
  destruct (detectOptimizationPatterns_report now request w)
    as (report & Hret & Hdet & _).
  exists report. split; [exact Hret|]. rewrite Hdet.
  fold code pattern_types.
  set (language := OptimizationPatternRequest.language request).
  assert (Hin : forall p,
            In p (sort byScoreDescending
                    (detectedPatterns code language pattern_types))
            <-> exists pattern,
                  In pattern pattern_types
                  /\ p = patternResult code language pattern
                  /\ gt (Applicability.score
                           (assessPatternApplicability code pattern language))
                        0.3%Q = true).
  { intros p. split.
    - intros H. apply (Permutation_in _ (sort_Permutation _ _ _)) in H.
      unfold detectedPatterns in H. apply filter_In in H.
      destruct H as [H Hgt]. apply in_map_iff in H.
      destruct H as (pattern & <- & Hp). exists pattern. auto.
    - intros (pattern & Hp & -> & Hgt).
      apply (Permutation_in _ (Permutation_sym (sort_Permutation _ _ _))).
      unfold detectedPatterns. apply filter_In. split; [|exact Hgt].
      apply in_map. exact Hp. }
  split.
  - intros pattern. rewrite in_map_iff. split.
    + intros (p & Hname & Hp). apply Hin in Hp.
      destruct Hp as (pattern' & Hp' & -> & Hgt).
      cbn [patternResult PatternResult.pattern_name] in Hname. subst pattern'.
      split; [exact Hp'|]. now apply (passes_threshold code language).
    + intros (Hp & Hrules).
      exists (patternResult code language pattern). split; [reflexivity|].
      apply Hin. exists pattern. split; [exact Hp|]. split; [reflexivity|].
      now apply passes_threshold.
  - intros p Hp. apply Hin in Hp. destruct Hp as (pattern & _ & -> & Hgt).
    cbn [patternResult PatternResult.pattern_name
         PatternResult.applicability_score].
    now apply detected_score.
Qed.

Lemma detected_pattern_names_witness :
  exists report,
    detectOptimizationPatterns
      (lit "2024-01-01")
      {| OptimizationPatternRequest.code_snippet := lit "items.indexOf(x)";
         OptimizationPatternRequest.language := lit "javascript";
         OptimizationPatternRequest.pattern_types :=
           Some [lit "caching"; lit "dynamic_programming"; lit "memoize"] |}
      {| draws := 0 |}
      = ({| draws := 0 |}, Return (text_response report))
    /\ (forall pattern,
          In pattern (map PatternResult.pattern_name
                          (PatternReport.detected_patterns report))
          <-> In pattern [lit "caching"; lit "dynamic_programming";
                          lit "memoize"]
              /\ (pattern = lit "dynamic_programming" ->
                  shows_overlap (lit "items.indexOf(x)") = true)
              /\ (pattern = lit "caching" ->
                  shows_lookups (lit "items.indexOf(x)") = true))
    /\ (forall p,
          In p (PatternReport.detected_patterns report) ->
          PatternResult.applicability_score p
          = if JS.eqb (PatternResult.pattern_name p)
                      (lit "dynamic_programming") then 0.8%Q
            else if JS.eqb (PatternResult.pattern_name p) (lit "caching")
                 then 0.9%Q else 0.5%Q).
Proof.
  exact (detected_pattern_names
           (lit "2024-01-01")
           {| OptimizationPatternRequest.code_snippet := lit "items.indexOf(x)";
              OptimizationPatternRequest.language := lit "javascript";
              OptimizationPatternRequest.pattern_types :=
                Some [lit "caching"; lit "dynamic_programming"; lit "memoize"] |}
           {| draws := 0 |}).
Defined.

(** X13.  [mcp_server_confidence] is "high" when at least one pattern is
    detected and "medium" when none is.  When the request names no pattern
    types, the default list is used, at least three patterns are detected
    whatever the snippet, and the confidence is "high". *)
Theorem confidence_follows_detection :
  forall (now : jsstring) (request : OptimizationPatternRequest.t) (w : World),
    exists report,
      detectOptimizationPatterns now request w
        = (w, Return (text_response report))
      /\ (PatternReport.detected_patterns report <> [] ->
          PatternReport.mcp_server_confidence report = lit "high")
      /\ (PatternReport.detected_patterns report = [] ->
          PatternReport.mcp_server_confidence report = lit "medium")
      /\ (OptimizationPatternRequest.pattern_types request = None ->
          3 <= List.length (PatternReport.detected_patterns report)
          /\ PatternReport.mcp_server_confidence report = lit "high").
Proof.
  intros now request w.
  destruct (detectOptimizationPatterns_report now request w)
    as (report & Hret & Hdet & _ & Hconf & _).
  exists report. split; [exact Hret|]. rewrite Hdet, Hconf.
  set (sorted := sort byScoreDescending _).
  assert (Hhigh : 0 < List.length sorted ->
                  (if 0 <? List.length sorted then lit "high" else lit "medium")
                  = lit "high").
  { intros H. apply Nat.ltb_lt in H. now rewrite H. }
  split; [|split].
  - intros H. apply Hhigh. destruct sorted; [contradiction | simpl; lia].
  - intros ->. reflexivity.
  - intros Hnone.
    assert (Hlen : 3 <= List.length sorted).
    { subst sorted. rewrite (Permutation_length (sort_Permutation _ _ _)).
      rewrite Hnone. unfold detectedPatterns, default_pattern_types.
      set (code := OptimizationPatternRequest.code_snippet request).
      set (language := OptimizationPatternRequest.language request).
      cbn [map filter].
      repeat match goal with
      | |- context [gt (PatternResult.applicability_score
                          (patternResult code language ?p)) 0.3%Q] =>
          let b := fresh "b" in
          let E := fresh "E" in
          destruct (gt (PatternResult.applicability_score
                          (patternResult code language p)) 0.3%Q) eqn:E;
          try (exfalso;
               assert (X : (lit "dynamic_programming" <> p) /\ (lit "caching" <> p))
                 by (split; discriminate);
               cbn [patternResult PatternResult.applicability_score] in E;
               rewrite (proj2 (passes_threshold code language p)) in E;
               [discriminate E | split; intros Y; discriminate Y])
      end; simpl; lia. }
    split; [exact Hlen | apply Hhigh; lia].
Qed.

Lemma confidence_follows_detection_witness :
  exists report,
    detectOptimizationPatterns
      (lit "2024-01-01")
      {| OptimizationPatternRequest.code_snippet := [];
         OptimizationPatternRequest.language := lit "javascript";
         OptimizationPatternRequest.pattern_types := None |}
      {| draws := 0 |}
      = ({| draws := 0 |}, Return (text_response report))
    /\ 3 <= List.length (PatternReport.detected_patterns report)
    /\ PatternReport.mcp_server_confidence report = lit "high".
Proof.
  destruct (confidence_follows_detection
              (lit "2024-01-01")
              {| OptimizationPatternRequest.code_snippet := [];
                 OptimizationPatternRequest.language := lit "javascript";
                 OptimizationPatternRequest.pattern_types := None |}
              {| draws := 0 |})
    as (report & Hret & _ & _ & Hdefault).
  exists report. split; [exact Hret|]. apply Hdefault. reflexivity.
Defined.

(** ** The complexity analysis tool: opportunities and their order *)

Lemma analyzeCodeComplexity_report (now : jsstring)
    (request : CodeAnalysisRequest.t) (w : World) :
  let code := CodeAnalysisRequest.code request in
  let language := CodeAnalysisRequest.language request in
  let sorted :=
    sort byPriorityDescending
      (identifyOptimizationOpportunities
         code language (CodeAnalysisRequest.optimization_target request)) in
  exists report,
    analyzeCodeComplexity now request w = (w, Return (text_response report))
    /\ AnalysisReport.optimization_opportunities report = sorted
    /\ AnalysisReport.recommendation_priority report = firstn 3 sorted
    /\ AnalysisReport.estimated_improvements report
       = estimateImprovements sorted
    /\ AnalysisReport.applicable_patterns report
       = (if match CodeAnalysisRequest.include_patterns request with
             | Some b => b
             | None => true
             end
          then detectPatterns code language else [])
    /\ AnalysisReport.complexity_analysis report
       = (if match CodeAnalysisRequest.include_complexity request with
             | Some b => b
             | None => true
             end
          then Some (performComplexityAnalysis code language) else None).
Proof.
  intros code language sorted. unfold analyzeCodeComplexity.
  unfold prioritizeRecommendations. eexists. split; [reflexivity|].
  repeat split.
Qed.

Lemma sorted_opportunities (code language target : jsstring) :
  sort byPriorityDescending
       (identifyOptimizationOpportunities code language target)
  = (if searches_linearly code then [data_structure] else [])
    ++ (if sorts_for_performance code target
        then [algorithm_optimization] else [])
    ++ (if has_several_for_loops code then [loop_optimization] else []).
Proof.
  unfold identifyOptimizationOpportunities, searches_linearly,
    sorts_for_performance, has_several_for_loops.
  destruct (includes code (lit "sort(") && JS.eqb target (lit "performance"));
    destruct (1 <? match_count for_header code);
    destruct (includes code (lit "indexOf") || includes code (lit "find("));
    vm_compute; reflexivity.
Qed.

(** X14.  In the response of [analyze_code_complexity] the opportunities are
    listed by priority, not in the order they were found: the
    "data_structure" entry (code containing "indexOf" or "find(") first, then
    "algorithm_optimization" (code containing "sort(" with target
    "performance"), then "loop_optimization" (at least two [for] headers).
    There are at most three, so [recommendation_priority] repeats the whole
    list, and [estimated_improvements] has one entry per opportunity in the
    same order. *)
Theorem opportunities_are_listed_by_priority :
  forall (now : jsstring) (request : CodeAnalysisRequest.t) (w : World),
    let code := CodeAnalysisRequest.code request in
    let target := CodeAnalysisRequest.optimization_target request in
    exists report,
      analyzeCodeComplexity now request w = (w, Return (text_response report))
      /\ AnalysisReport.optimization_opportunities report
         = (if searches_linearly code then [data_structure] else [])
           ++ (if sorts_for_performance code target
               then [algorithm_optimization] else [])
           ++ (if has_several_for_loops code then [loop_optimization] else [])
      /\ AnalysisReport.recommendation_priority report
         = AnalysisReport.optimization_opportunities report
      /\ map Improvement.type (AnalysisReport.estimated_improvements report)
         = map Opportunity.type
               (AnalysisReport.optimization_opportunities report).
Proof.
  intros now request w code target.
  destruct (analyzeCodeComplexity_report now request w)
    as (report & Hret & Hopp & Hprio & Himp & _).
  exists report. split; [exact Hret|].
  rewrite Hopp, Hprio, Himp, sorted_opportunities. fold code target.
  split; [reflexivity|].
  destruct (searches_linearly code);
    destruct (sorts_for_performance code target);
    destruct (has_several_for_loops code); split; reflexivity.
Qed.

(** X15.  The estimated speed-up of an opportunity is "1.5-2x" for
    "algorithm_optimization" and "2-5x" for the other two kinds; the lowest
    band "1.1-1.5x" is never reported. *)
Theorem estimated_speedup_bands :
  forall (now : jsstring) (request : CodeAnalysisRequest.t) (w : World),
    exists report,
      analyzeCodeComplexity now request w = (w, Return (text_response report))
      /\ forall i, In i (AnalysisReport.estimated_improvements report) ->
           Improvement.estimated_speedup i <> lit "1.1-1.5x"
           /\ (Improvement.type i = lit "algorithm_optimization" ->
               Improvement.estimated_speedup i = lit "1.5-2x")
           /\ (Improvement.type i <> lit "algorithm_optimization" ->
               Improvement.estimated_speedup i = lit "2-5x").
Proof.
  intros now request w.
  destruct (analyzeCodeComplexity_report now request w)
    as (report & Hret & _ & _ & Himp & _).
  exists report. split; [exact Hret|].
  rewrite Himp, sorted_opportunities.
  intros i Hi. unfold estimateImprovements in Hi. apply in_map_iff in Hi.
  destruct Hi as (opp & <- & Hopp).
  assert (Hcases : opp = data_structure \/ opp = algorithm_optimization
                   \/ opp = loop_optimization).
  { destruct (searches_linearly _); destruct (sorts_for_performance _ _);
      destruct (has_several_for_loops _); simpl in Hopp; intuition. }
  destruct Hcases as [-> | [-> | ->]]; vm_compute;
    (split; [intros H; discriminate H|]);
    (split; [intros H; (reflexivity || discriminate H)
            | intros H; (reflexivity || (exfalso; apply H; reflexivity))]).
Qed.

Lemma estimated_speedup_bands_witness :
  exists report,
    analyzeCodeComplexity
      (lit "2024-01-01")
      {| CodeAnalysisRequest.code := lit "items.sort().indexOf(x)";
         CodeAnalysisRequest.language := lit "javascript";
         CodeAnalysisRequest.optimization_target := lit "performance";
         CodeAnalysisRequest.include_patterns := None;
         CodeAnalysisRequest.include_complexity := None |}
      {| draws := 0 |}
    = ({| draws := 0 |}, Return (text_response report))
    /\ forall i, In i (AnalysisReport.estimated_improvements report) ->
         Improvement.estimated_speedup i <> lit "1.1-1.5x"
         /\ (Improvement.type i = lit "algorithm_optimization" ->
             Improvement.estimated_speedup i = lit "1.5-2x")
         /\ (Improvement.type i <> lit "algorithm_optimization" ->
             Improvement.estimated_speedup i = lit "2-5x").
Proof.
  exact (estimated_speedup_bands
           (lit "2024-01-01")
           {| CodeAnalysisRequest.code := lit "items.sort().indexOf(x)";
              CodeAnalysisRequest.language := lit "javascript";
              CodeAnalysisRequest.optimization_target := lit "performance";
              CodeAnalysisRequest.include_patterns := None;
              CodeAnalysisRequest.include_complexity := None |}
           {| draws := 0 |}).
Defined.

(** The entry found last is listed first. *)
Example opportunities_reordered :
  map Opportunity.type
      (fst (prioritizeRecommendations
              (identifyOptimizationOpportunities
                 (lit "items.sort().indexOf(x)") (lit "javascript")
                 (lit "performance"))))
  = [lit "data_structure"; lit "algorithm_optimization"].
Proof. vm_compute. reflexivity. Qed.

(** ** The test-plan generator *)

Lemma testCase_category (category : jsstring) :
  TestCategory.category (testCase category) = category.
Proof.
  unfold testCase.
  repeat match goal with
  | |- context [JS.eqb category ?l] =>
      let E := fresh "E" in
      destruct (JS.eqb category l) eqn:E;
      [apply eqb_eq in E; subst category; reflexivity|]
  end.
  reflexivity.
Qed.

Lemma testCase_tests (category : jsstring) :
  List.length (TestCategory.tests (testCase category))
  = if recognized_category category then 5 else 1.
Proof.
  unfold testCase, recognized_category, default_test_categories.
  cbn [existsb].
  destruct (JS.eqb category (lit "edge_cases")); [reflexivity|].
  destruct (JS.eqb category (lit "performance")); [reflexivity|].
  destruct (JS.eqb category (lit "correctness")); [reflexivity|].
  destruct (JS.eqb category (lit "error_handling")); reflexivity.
Qed.

Lemma total_scenarios (categories : list jsstring) :
  forall acc : nat,
    fold_left (fun sum cat => sum + List.length (TestCategory.tests cat))
              (map testCase categories) acc
    = acc + List.length categories
      + 4 * List.length (filter recognized_category categories).
Proof.
  induction categories as [|c cs IH]; intros acc; [simpl; lia|].
  cbn [map fold_left filter List.length]. rewrite IH, testCase_tests.
  destruct (recognized_category c); cbn [List.length]; lia.
Qed.

(** X16.  [generate_test_cases] answers with one entry per requested
    category, in the order and under the names of the request; a recognized
    category has five scenarios and any other name one, so
    [total_test_scenarios] is the number of categories plus four for each
    recognized one (20 for the default list). *)
Theorem test_plan_follows_the_categories :
  forall (now : jsstring) (args : TestCaseRequest.t) (w : World),
    let categories :=
      match TestCaseRequest.test_categories args with
      | Some l => l
      | None => default_test_categories
      end in
    exists plan,
      generateTestCases now args w = (w, Return (text_response plan))
      /\ map TestCategory.category (TestPlan.generated_test_categories plan)
         = categories
      /\ Forall (fun cat =>
                   List.length (TestCategory.tests cat)
                   = if recognized_category (TestCategory.category cat)
                     then 5 else 1)
                (TestPlan.generated_test_categories plan)
      /\ TestPlan.total_test_scenarios plan
         = List.length categories
           + 4 * List.length (filter recognized_category categories)
      /\ (TestCaseRequest.test_categories args = None ->
          TestPlan.total_test_scenarios plan = 20).
Proof.
  intros now args w categories. unfold generateTestCases. fold categories.
  eexists. split; [reflexivity|].
  cbn [TestPlan.generated_test_categories TestPlan.total_test_scenarios].
  split; [|split; [|split]].
  - rewrite map_map. rewrite <- (map_id categories) at 2.
    apply map_ext. apply testCase_category.
  - apply Forall_forall. intros cat Hcat. apply in_map_iff in Hcat.
    destruct Hcat as (c & <- & _).
    rewrite testCase_category. apply testCase_tests.
  - rewrite total_scenarios. reflexivity.
  - intros Hnone. subst categories. rewrite Hnone. reflexivity.
Qed.

Lemma test_plan_follows_the_categories_witness :
  exists plan,
    generateTestCases
      (lit "2024-01-01")
      {| TestCaseRequest.function_signature := lit "function fib(n)";
         TestCaseRequest.language := lit "javascript";
         TestCaseRequest.test_categories := None |}
      {| draws := 0 |}
    = ({| draws := 0 |}, Return (text_response plan))
    /\ TestPlan.total_test_scenarios plan = 20.
Proof.
  destruct (test_plan_follows_the_categories
              (lit "2024-01-01")
              {| TestCaseRequest.function_signature := lit "function fib(n)";
                 TestCaseRequest.language := lit "javascript";
                 TestCaseRequest.test_categories := None |}
              {| draws := 0 |})
    as (plan & Hret & _ & _ & _ & Hdefault).
  exists plan. split; [exact Hret | apply Hdefault; reflexivity].
Defined.

(** ** The matcher finds exactly the matches *)

Lemma star_class_sound (p : N -> bool) (s : jsstring) :
  forall (i : nat) (k : cont) (e : nat),
    star_class p s i k = Some e ->
    exists m s', s = m ++ s' /\ forallb p m = true
                 /\ k s' (i + List.length m) = Some e.
Proof.
  induction s as [|x s IH]; intros i k e H; simpl in H.
  - exists [], []. simpl. now rewrite Nat.add_0_r.
  - destruct (p x) eqn:Ep.
    + destruct (star_class p s (S i) k) as [e'|] eqn:Es.
      * injection H as ->. apply IH in Es.
        destruct Es as (m & s' & -> & Hm & Hk).
        exists (x :: m), s'. simpl. rewrite Ep, Hm.
        repeat split. now rewrite Nat.add_succ_r.
      * exists [], (x :: s). simpl. now rewrite Nat.add_0_r.
    + exists [], (x :: s). simpl. now rewrite Nat.add_0_r.
Qed.

Lemma run_sound (r : regex) :
  forall (s : jsstring) (i : nat) (k : cont) (e : nat),
    run r s i k = Some e ->
    exists m s', s = m ++ s' /\ matches r m
                 /\ k s' (i + List.length m) = Some e.
Proof.
  induction r as [|c|p|r1 IH1 r2 IH2|r1 IH1 r2 IH2]; intros s i k e H;
    simpl in H.
  - exists [], s. simpl. now rewrite Nat.add_0_r.
  - destruct s as [|x s]; [discriminate H|].
    destruct (N.eqb x c) eqn:E; [|discriminate H].
    apply N.eqb_eq in E. subst x.
    exists [c], s. simpl. now rewrite Nat.add_1_r.
  - now apply star_class_sound.
  - apply IH1 in H. destruct H as (m1 & s1 & -> & Hm1 & H).
    apply IH2 in H. destruct H as (m2 & s2 & -> & Hm2 & H).
    exists (m1 ++ m2), s2. rewrite <- app_assoc. split; [reflexivity|].
    split; [simpl; eauto|].
    now rewrite length_app, Nat.add_assoc.
  - destruct (run r1 s i k) as [e'|] eqn:E1.
    + injection H as ->. apply IH1 in E1.
      destruct E1 as (m & s' & -> & Hm & Hk). exists m, s'. simpl. auto.
    + apply IH2 in H.
      destruct H as (m & s' & -> & Hm & Hk). exists m, s'. simpl. auto.
Qed.

Lemma star_class_complete (p : N -> bool) (m : jsstring) :
  forall (s' : jsstring) (i : nat) (k : cont),
    forallb p m = true ->
    k s' (i + List.length m) <> None ->
    star_class p (m ++ s') i k <> None.
Proof.
  induction m as [|x m IH]; intros s' i k Hm Hk.
  - simpl in *. rewrite Nat.add_0_r in Hk.
    destruct s' as [|y s']; simpl; [exact Hk|].
    destruct (p y); [|exact Hk].
    destruct (star_class p s' (S i) k); [discriminate | exact Hk].
  - simpl in Hm. apply andb_true_iff in Hm. destruct Hm as [Hx Hm].
    simpl. rewrite Hx.
    specialize (IH s' (S i) k Hm).
    destruct (star_class p (m ++ s') (S i) k); [discriminate|].
    exfalso. apply IH; [|reflexivity].
    simpl in Hk. now rewrite Nat.add_succ_r in Hk.
Qed.

Lemma run_complete (r : regex) :
  forall (m s' : jsstring) (i : nat) (k : cont),
    matches r m ->
    k s' (i + List.length m) <> None ->
    run r (m ++ s') i k <> None.
Proof.
  induction r as [|c|p|r1 IH1 r2 IH2|r1 IH1 r2 IH2]; intros m s' i k Hm Hk;
    simpl in Hm.
  - subst m. simpl in *. now rewrite Nat.add_0_r in Hk.
  - subst m. simpl in *. rewrite N.eqb_refl. now rewrite Nat.add_1_r in Hk.
  - now apply star_class_complete.
  - destruct Hm as (m1 & m2 & -> & Hm1 & Hm2).
    simpl. rewrite <- app_assoc. apply IH1; [exact Hm1|].
    apply IH2; [exact Hm2|].
    now rewrite length_app, Nat.add_assoc in Hk.
  - simpl. destruct Hm as [Hm|Hm].
    + specialize (IH1 m s' i k Hm Hk).
      destruct (run r1 (m ++ s') i k); [discriminate | contradiction].
    + destruct (run r1 (m ++ s') i k); [discriminate|].
      now apply IH2.
Qed.

Lemma exec_sound (r : regex) (s : jsstring) (e : nat) :
  exec r s = Some e ->
  exists m s', s = m ++ s' /\ matches r m /\ e = List.length m.
Proof.
  intros H. apply run_sound in H. destruct H as (m & s' & -> & Hm & He).
  injection He as <-. exists m, s'. auto.
Qed.

Lemma exec_complete (r : regex) (m s' : jsstring) :
  matches r m -> exec r (m ++ s') <> None.
Proof.
  intros Hm. unfold exec. apply run_complete; [exact Hm | discriminate].
Qed.

Lemma scan_positive_intro (r : regex) :
  forall (s : jsstring) (skip : nat) (pre q : jsstring),
    s = pre ++ q -> skip <= List.length pre -> exec r q <> None ->
    1 <= scan r s skip.
Proof.
  induction s as [|x s IH]; intros skip pre q Hs Hskip Hq.
  - destruct pre; [|discriminate Hs]. simpl in Hs. subst q.
    destruct skip; [|simpl in Hskip; lia]. simpl.
    destruct (exec r []); [lia | contradiction].
  - destruct skip as [|n].
    + simpl. destruct (exec r (x :: s)) as [n|] eqn:E; [lia|].
      destruct pre as [|y pre].
      * simpl in Hs. subst q. contradiction.
      * injection Hs as _ Hs. apply (IH 0 pre q Hs); [lia | exact Hq].
    + destruct pre as [|y pre]; [simpl in Hskip; lia|].
      injection Hs as _ Hs. simpl.
      apply (IH n pre q Hs); [simpl in Hskip; lia | exact Hq].
Qed.

Lemma scan_positive_elim (r : regex) :
  forall (s : jsstring) (skip : nat),
    1 <= scan r s skip -> exists pre q, s = pre ++ q /\ exec r q <> None.
Proof.
  induction s as [|x s IH]; intros skip H.
  - destruct skip; simpl in H; [|lia].
    exists [], []. split; [reflexivity|].
    destruct (exec r []); [discriminate | lia].
  - destruct skip as [|n]; simpl in H.
    + destruct (exec r (x :: s)) as [n|] eqn:E.
      * exists [], (x :: s). split; [reflexivity|]. rewrite E. discriminate.
      * apply IH in H. destruct H as (pre & q & -> & Hq).
        exists (x :: pre), q. auto.
    + apply IH in H. destruct H as (pre & q & -> & Hq).
      exists (x :: pre), q. auto.
Qed.

(** A pattern is counted at least once exactly when a match of it occurs
    somewhere in the string. *)
Lemma match_count_positive (r : regex) (s : jsstring) :
  1 <= match_count r s <-> occurs_in (matches r) s.
Proof.
  unfold match_count, occurs_in. split.
  - intros H. apply scan_positive_elim in H.
    destruct H as (pre & q & -> & Hq).
    destruct (exec r q) as [e|] eqn:E; [|contradiction].
    apply exec_sound in E. destruct E as (m & post & -> & Hm & _).
    exists pre, m, post. auto.
  - intros (pre & m & post & -> & Hm).
    apply (scan_positive_intro r _ 0 pre (m ++ post) eq_refl); [lia|].
    now apply exec_complete.
Qed.

Lemma search_true (r : regex) (s : jsstring) :
  search r s = true <-> occurs_in (matches r) s.
Proof.
  unfold occurs_in. split.
  - induction s as [|x s IH]; simpl.
    + destruct (exec r []) as [e|] eqn:E; [|discriminate].
      intros _. apply exec_sound in E.
      destruct E as (m & post & Hs & Hm & _). exists [], m, post. auto.
    + destruct (exec r (x :: s)) as [e|] eqn:E.
      * intros _. apply exec_sound in E.
        destruct E as (m & post & Hs & Hm & _). exists [], m, post. auto.
      * intros H. apply IH in H. destruct H as (pre & m & post & -> & Hm).
        exists (x :: pre), m, post. auto.
  - intros (pre & m & post & -> & Hm).
    induction pre as [|x pre IH].
    + pose proof (exec_complete r m post Hm) as H. simpl.
      destruct (m ++ post); simpl; destruct (exec r _); congruence.
    + simpl. destruct (exec r (x :: pre ++ m ++ post)); [reflexivity|].
      exact IH.
Qed.

(** ** What the three patterns match *)

Lemma matches_str (l m : jsstring) : matches (str l) m <-> m = l.
Proof.
  revert m. induction l as [|c l IH]; intros m; simpl; [tauto|].
  split.
  - intros (m1 & m2 & -> & -> & H). apply IH in H. now subst.
  - intros ->. exists [c], l. repeat split. now apply IH.
Qed.

Lemma matches_header (keyword m : jsstring) :
  matches (Seq (str keyword) (Seq (ClassStar is_space) (Chr 40%N))) m
  <-> exists ws, forallb is_space ws = true /\ m = keyword ++ ws ++ [40%N].
Proof.
  simpl. split.
  - intros (m1 & m2 & -> & H1 & ws & m3 & -> & Hws & ->).
    apply matches_str in H1. subst m1. exists ws. auto.
  - intros (ws & Hws & ->). exists keyword, (ws ++ [40%N]).
    split; [reflexivity|]. split; [now apply matches_str|].
    exists ws, [40%N]. auto.
Qed.

Lemma matches_for_header (m : jsstring) :
  matches for_header m <-> for_loop_header m.
Proof. apply matches_header. Qed.

Lemma matches_loop_regex (m : jsstring) :
  matches loop_regex m <-> loop_header m.
Proof.
  unfold loop_regex, loop_header. cbn [matches].
  unfold for_header, while_header. rewrite !matches_header. split.
  - intros [(ws & Hws & ->)|(ws & Hws & ->)]; eauto 6.
  - intros (keyword & ws & [->| ->] & Hws & ->); eauto.
Qed.

Lemma matches_nested_regex (m : jsstring) :
  matches nested_regex m <-> nested_for_headers m.
Proof.
  unfold nested_regex, nested_for_headers. cbn [matches]. split.
  - intros (h1 & m2 & -> & H1 & mid & h2 & -> & Hmid & H2).
    apply matches_for_header in H1, H2. exists h1, mid, h2. auto.
  - intros (h1 & mid & h2 & H1 & H2 & Hmid & ->).
    apply matches_for_header in H1, H2.
    exists h1, (mid ++ h2). split; [reflexivity|]. split; [exact H1|].
    exists mid, h2. auto.
Qed.

Lemma matches_two_pointers_regex (m : jsstring) :
  matches two_pointers_regex m <-> while_below_length m.
Proof.
  unfold two_pointers_regex, while_below_length. cbn [matches]. split.
  - intros (m1 & m2 & -> & H1 & a & m3 & -> & Ha & m4 & m5 & -> & -> & b & m6
            & -> & Hb & H6).
    apply matches_str in H1, H6. subst m1 m6. exists a, b. auto.
  - intros (a & b & Ha & Hb & ->).
    exists (lit "while"), (a ++ [60%N] ++ b ++ lit "length").
    split; [reflexivity|]. split; [now apply matches_str|].
    exists a, ([60%N] ++ b ++ lit "length").
    split; [reflexivity|]. split; [exact Ha|].
    exists [60%N], (b ++ lit "length").
    split; [reflexivity|]. split; [reflexivity|].
    exists b, (lit "length"). split; [reflexivity|]. split; [exact Hb|].
    now apply matches_str.
Qed.

Lemma occurs_in_iff (P Q : jsstring -> Prop) (s : jsstring) :
  (forall m, P m <-> Q m) -> occurs_in P s <-> occurs_in Q s.
Proof.
  intros H. unfold occurs_in. split; intros (pre & m & post & Hs & Hm);
    exists pre, m, post; split; auto; now apply H.
Qed.

(** X17.  [loop_count] is at least 1 exactly when the code contains a loop
    header: "for" or "while", any white space, "(".  [nested_loops] is at
    least 1 exactly when it contains two [for] headers with no closing brace
    between them, and then the analysis says "O(n²)" time and "O(n)"
    space. *)
Theorem loops_are_found_when_present :
  forall (code language : jsstring),
    let r := performComplexityAnalysis code language in
    (1 <= loop_count r <-> occurs_in loop_header code)
    /\ (1 <= nested_loops r <-> occurs_in nested_for_headers code)
    /\ (occurs_in nested_for_headers code ->
        time_complexity r = O_n2 /\ space_complexity r = O_n).
Proof.
  intros code language r.
  assert (Hn : 1 <= nested_loops r <-> occurs_in nested_for_headers code).
  { subst r. cbn [performComplexityAnalysis nested_loops].
    rewrite match_count_positive.
    apply occurs_in_iff, matches_nested_regex. }
  split; [|split; [exact Hn|]].
  - subst r. cbn [performComplexityAnalysis loop_count].
    rewrite match_count_positive.
    apply occurs_in_iff, matches_loop_regex.
  - intros H. apply Hn in H.
    subst r. unfold performComplexityAnalysis in *.
    cbn [nested_loops time_complexity space_complexity] in *.
    apply Nat.ltb_lt in H. now rewrite H.
Qed.

Lemma loops_are_found_when_present_witness :
  let r := performComplexityAnalysis
             (lit "if (a) { for (i of xs) for(j of ys) f(i, j) }")
             (lit "javascript") in
  time_complexity r = O_n2 /\ space_complexity r = O_n.
Proof.
  apply (loops_are_found_when_present
           (lit "if (a) { for (i of xs) for(j of ys) f(i, j) }")
           (lit "javascript")).
  exists (lit "if (a) { "), (lit "for (i of xs) for("),
         (lit "j of ys) f(i, j) }").
  split; [reflexivity|].
  exists (lit "for ("), (lit "i of xs) "), (lit "for(").
  split; [exists (lit " "); split; reflexivity|].
  split; [exists []; split; reflexivity|].
  split; reflexivity.
Defined.

(** X18.  [detectPatterns] reports "two_pointers" exactly when the code
    contains "while", later "<" and later "length" with no line break
    between them. *)
Theorem two_pointers_is_reported_iff :
  forall (code language : jsstring),
    In (lit "two_pointers") (detectPatterns code language)
    <-> occurs_in while_below_length code.
Proof.
  intros code language.
  rewrite <- (occurs_in_iff _ _ code matches_two_pointers_regex).
  rewrite <- search_true. unfold detectPatterns.
  destruct (includes code (lit "memo") || includes code (lit "cache"));
    destruct (includes code (lit "dp[") || includes code (lit "table["));
    destruct (search two_pointers_regex code); simpl; split; intros H;
    try reflexivity; try discriminate H; auto;
    repeat (destruct H as [H|H]; try discriminate H); contradiction.
Qed.

(** ** Counting the loop headers *)

Lemma scan_length_bound (r : regex) (n : nat) :
  1 <= n ->
  (forall m, matches r m -> n <= List.length m) ->
  forall (s : jsstring) (skip : nat),
    scan r s skip * n <= List.length s - skip.
Proof.
  intros Hn Hmin.
  assert (Hexec : forall s e, exec r s = Some e ->
                              n <= e /\ e <= List.length s).
  { intros s e H. apply exec_sound in H.
    destruct H as (m & s' & -> & Hm & ->).
    split; [now apply Hmin | rewrite length_app; lia]. }
  induction s as [|x s IH]; intros skip.
  - destruct skip; simpl; [|lia].
    destruct (exec r []) as [e|] eqn:E; [|lia].
    apply Hexec in E. simpl in E. lia.
  - destruct skip as [|k]; simpl.
    + destruct (exec r (x :: s)) as [e|] eqn:E.
      * apply Hexec in E. simpl in E. specialize (IH (pred e)). lia.
      * specialize (IH 0). lia.
    + apply IH.
Qed.

Lemma loop_header_length (m : jsstring) : loop_header m -> 4 <= List.length m.
Proof.
  intros (keyword & ws & [->| ->] & _ & ->);
    rewrite !length_app; simpl; lia.
Qed.

Lemma for_loop_header_length (m : jsstring) :
  for_loop_header m -> 4 <= List.length m.
Proof.
  intros (ws & _ & ->). rewrite !length_app; simpl; lia.
Qed.

Lemma nested_for_headers_length (m : jsstring) :
  nested_for_headers m -> 8 <= List.length m.
Proof.
  intros (h1 & mid & h2 & H1 & H2 & _ & ->).
  apply for_loop_header_length in H1, H2. rewrite !length_app. lia.
Qed.

Lemma space_is_no_initial (ws : jsstring) :
  forallb is_space ws = true ->
  forallb (fun x => negb (keyword_initial x)) ws = true.
Proof.
  induction ws as [|c ws IH]; simpl; [reflexivity|].
  intros H. apply andb_true_iff in H. destruct H as [Hc Hws].
  rewrite (IH Hws), andb_true_r.
  unfold keyword_initial.
  destruct (N.eqb c 102) eqn:E1;
    [apply N.eqb_eq in E1; subst c; discriminate Hc|].
  destruct (N.eqb c 119) eqn:E2;
    [apply N.eqb_eq in E2; subst c; discriminate Hc|].
  reflexivity.
Qed.

Lemma keyword_led_loop_regex : keyword_led loop_regex.
Proof.
  intros m Hm. apply matches_loop_regex in Hm.
  destruct Hm as (keyword & ws & [->| ->] & Hws & ->);
    apply space_is_no_initial in Hws; simpl.
  - exists 102%N, ([111%N; 114%N] ++ ws ++ [40%N]).
    split; [reflexivity|]. split; [reflexivity|].
    simpl. rewrite forallb_app, Hws. reflexivity.
  - exists 119%N, ([104%N; 105%N; 108%N; 101%N] ++ ws ++ [40%N]).
    split; [reflexivity|]. split; [reflexivity|].
    simpl. rewrite forallb_app, Hws. reflexivity.
Qed.

Lemma keyword_led_for_header : keyword_led for_header.
Proof.
  intros m Hm. apply keyword_led_loop_regex. apply matches_loop_regex.
  apply matches_for_header in Hm. destruct Hm as (ws & Hws & ->).
  exists (lit "for"), ws. auto.
Qed.

(** For a keyword-led pattern the scan misses no match: a match cannot
    start inside another one. *)
Lemma scan_counts_all_starts (r : regex) :
  keyword_led r ->
  forall (s : jsstring) (skip : nat),
    skip <= List.length s ->
    forallb (fun x => negb (keyword_initial x)) (firstn skip s) = true ->
    scan r s skip = starts r s.
Proof.
  intros Hled.
  assert (Hhead : forall x s, keyword_initial x = false ->
                              exec r (x :: s) = None).
  { intros x s Hx. destruct (exec r (x :: s)) as [e|] eqn:E; [|reflexivity].
    apply exec_sound in E. destruct E as (m & s' & Hs & Hm & _).
    apply Hled in Hm. destruct Hm as (c & m' & -> & Hc & _).
    injection Hs as -> _. congruence. }
  induction s as [|x s IH]; intros skip Hskip Hfirst.
  - destruct skip; [|simpl in Hskip; lia]. simpl.
    destruct (exec r []); lia.
  - destruct skip as [|k].
    + simpl. destruct (exec r (x :: s)) as [e|] eqn:E.
      * apply exec_sound in E. destruct E as (m & s' & Hs & Hm & ->).
        apply Hled in Hm. destruct Hm as (c & m' & -> & _ & Hm').
        injection Hs as _ ->. simpl. f_equal. apply IH.
        -- rewrite length_app. lia.
        -- rewrite firstn_app, Nat.sub_diag, firstn_all. simpl.
           now rewrite app_nil_r.
      * simpl. apply IH; [lia | reflexivity].
    + simpl in Hfirst. apply andb_true_iff in Hfirst.
      destruct Hfirst as [Hx Hfirst]. apply negb_true_iff in Hx.
      simpl. rewrite (Hhead x s Hx). simpl.
      apply IH; [simpl in Hskip; lia | exact Hfirst].
Qed.

Lemma match_count_starts (r : regex) (s : jsstring) :
  keyword_led r -> match_count r s = starts r s.
Proof.
  intros H. unfold match_count.
  apply scan_counts_all_starts; [exact H | lia | reflexivity].
Qed.

Lemma starts_app_ge (r : regex) (a b : jsstring) :
  starts r b <= starts r (a ++ b).
Proof.
  induction a as [|x a IH]; [apply Nat.le_refl|].
  simpl. lia.
Qed.

Lemma starts_head (r : regex) (m s' : jsstring) :
  matches r m ->
  forall x m', m = x :: m' -> starts r (m ++ s') = 1 + starts r (m' ++ s').
Proof.
  intros Hm x m' ->. pose proof (exec_complete r _ s' Hm) as H. simpl in *.
  destruct (exec r (x :: m' ++ s')); [reflexivity | contradiction].
Qed.

Lemma starts_le (r1 r2 : regex) :
  (forall m, matches r1 m -> matches r2 m) ->
  forall s, starts r1 s <= starts r2 s.
Proof.
  intros H.
  assert (Hexec : forall s, exec r1 s <> None -> exec r2 s <> None).
  { intros s Hs. destruct (exec r1 s) as [e|] eqn:E; [|contradiction].
    apply exec_sound in E. destruct E as (m & s' & -> & Hm & _).
    apply exec_complete. now apply H. }
  induction s as [|x s IH]; simpl.
  - specialize (Hexec []).
    destruct (exec r1 []); [|lia].
    destruct (exec r2 []); [lia | exfalso; apply Hexec; [discriminate|reflexivity]].
  - specialize (Hexec (x :: s)).
    destruct (exec r1 (x :: s)); [|lia].
    destruct (exec r2 (x :: s));
      [lia | exfalso; apply Hexec; [discriminate|reflexivity]].
Qed.

Lemma nested_scan_le_starts :
  forall (s : jsstring) (skip : nat),
    2 * scan nested_regex s skip <= starts for_header (skipn skip s).
Proof.
  induction s as [|x s IH]; intros skip.
  - destruct skip; simpl; [|lia].
    destruct (exec nested_regex []) as [e|] eqn:E; [|lia].
    apply exec_sound in E. destruct E as (m & s' & Hs & Hm & _).
    apply matches_nested_regex, nested_for_headers_length in Hm.
    symmetry in Hs. apply app_eq_nil in Hs. destruct Hs as [-> _].
    simpl in Hm. lia.
  - destruct skip as [|k]; [|simpl; apply IH].
    cbn [scan skipn].
    destruct (exec nested_regex (x :: s)) as [e|] eqn:E.
    + apply exec_sound in E. destruct E as (m & s' & Hs & Hm & ->).
      apply matches_nested_regex in Hm.
      destruct Hm as (h1 & mid & h2 & H1 & H2 & _ & ->).
      pose proof (for_loop_header_length _ H1) as L1.
      pose proof (for_loop_header_length _ H2) as L2.
      apply matches_for_header in H1, H2.
      destruct h1 as [|y1 h1]; [simpl in L1; lia|].
      destruct h2 as [|y2 h2]; [simpl in L2; lia|].
      rewrite Hs. simpl in Hs. injection Hs as _ ->.
      specialize (IH (pred (List.length ((y1 :: h1) ++ mid ++ y2 :: h2)))).
      replace (pred (List.length ((y1 :: h1) ++ mid ++ y2 :: h2)))
        with (List.length (h1 ++ mid ++ y2 :: h2)) in IH by (simpl; lia).
      rewrite skipn_app, skipn_all, Nat.sub_diag in IH. simpl in IH.
      rewrite <- !app_assoc.
      rewrite (starts_head for_header (y1 :: h1) _ H1 y1 h1 eq_refl).
      pose proof (starts_app_ge for_header (h1 ++ mid)
                                ((y2 :: h2) ++ s')) as Hge.
      rewrite <- app_assoc in Hge.
      rewrite (starts_head for_header (y2 :: h2) _ H2 y2 h2 eq_refl) in Hge.
      pose proof (starts_app_ge for_header h2 s') as Hge'.
      rewrite <- !app_assoc in IH.
      simpl in IH, Hge |- *. lia.
    + specialize (IH 0). simpl in IH.
      pose proof (starts_app_ge for_header [x] s) as Hge.
      change ([x] ++ s) with (x :: s) in Hge. lia.
Qed.

Lemma for_headers_between (code : jsstring) :
  2 * match_count nested_regex code <= match_count for_header code
  /\ match_count for_header code <= match_count loop_regex code.
Proof.
  rewrite (match_count_starts _ _ keyword_led_for_header).
  rewrite (match_count_starts _ _ keyword_led_loop_regex).
  split.
  - apply (nested_scan_le_starts code 0).
  - apply starts_le. intros m Hm. simpl. now left.
Qed.

(** X19.  The three counts agree with one another: every nested-loop match
    holds two [for] headers, and every [for] header is a loop header, so
    [2 * nested_loops <= (number of for headers) <= loop_count].  Every loop
    header takes at least four code units, so [4 * loop_count] is at most
    the length of the code, and twice the complexity score at most the
    length plus 2. *)
Theorem loop_counts_are_consistent :
  forall (code language : jsstring),
    let r := performComplexityAnalysis code language in
    2 * nested_loops r <= match_count for_header code
    /\ match_count for_header code <= loop_count r
    /\ 4 * loop_count r <= List.length code
    /\ 2 * complexity_score r <= List.length code + 2
    /\ 2 * estimateComplexity code <= List.length code + 2.
Proof.
  intros code language r.
  assert (H1 : 2 * nested_loops r <= match_count for_header code)
    by apply (for_headers_between code).
  assert (H2 : match_count for_header code <= loop_count r)
    by apply (for_headers_between code).
  assert (H3 : 4 * loop_count r <= List.length code).
  { subst r. cbn [performComplexityAnalysis loop_count].
    pose proof (scan_length_bound loop_regex 4 ltac:(lia)
                  (fun m Hm => loop_header_length m
                                 (proj1 (matches_loop_regex m) Hm))
                  code 0) as H.
    unfold match_count. lia. }
  assert (H4 : recursive_calls r <= 1).
  { subst r. cbn [performComplexityAnalysis recursive_calls].
    destruct (includes code (lit "return") && includes code (lit "(")); lia. }
  split; [exact H1|]. split; [exact H2|]. split; [exact H3|].
  assert (Hs : complexity_score r
               = loop_count r + nested_loops r * 2 + recursive_calls r)
    by reflexivity.
  assert (He : estimateComplexity code
               = 1 + loop_count r + nested_loops r * 2) by reflexivity.
  split; lia.
Qed.

(** X20.  One response of [analyze_code_complexity] is consistent between
    its parts: when its complexity analysis counts a nested loop, the
    "loop_optimization" opportunity is among its opportunities; and when
    that opportunity is listed, the analysis counts at least two loops. *)
Theorem nested_loops_bring_loop_optimization :
  forall (now : jsstring) (request : CodeAnalysisRequest.t) (w : World),
    CodeAnalysisRequest.include_complexity request <> Some false ->
    exists report analysis,
      analyzeCodeComplexity now request w = (w, Return (text_response report))
      /\ AnalysisReport.complexity_analysis report = Some analysis
      /\ (1 <= nested_loops analysis ->
          In loop_optimization
             (AnalysisReport.optimization_opportunities report))
      /\ (In loop_optimization
             (AnalysisReport.optimization_opportunities report) ->
          2 <= loop_count analysis).
Proof.
  intros now request w Hinc.
  destruct (analyzeCodeComplexity_report now request w)
    as (report & Hret & Hopp & _ & _ & _ & Hana).
  set (code := CodeAnalysisRequest.code request) in *.
  set (language := CodeAnalysisRequest.language request) in *.
  exists report, (performComplexityAnalysis code language).
  split; [exact Hret|]. split.
  { rewrite Hana.
    destruct (CodeAnalysisRequest.include_complexity request) as [[|]|];
      [reflexivity | contradiction | reflexivity]. }
  rewrite Hopp, sorted_opportunities.
  destruct (for_headers_between code) as [H1 H2].
  change (match_count nested_regex code)
    with (nested_loops (performComplexityAnalysis code language)) in H1.
  change (match_count loop_regex code)
    with (loop_count (performComplexityAnalysis code language)) in H2.
  unfold has_several_for_loops. split.
  - intros Hn. apply in_or_app. right. apply in_or_app. right.
    assert (E : (1 <? match_count for_header code) = true)
      by (apply Nat.ltb_lt; lia).
    rewrite E. now left.
  - intros Hin.
    destruct (1 <? match_count for_header code) eqn:E.
    + apply Nat.ltb_lt in E. lia.
    + exfalso.
      destruct (searches_linearly code);
        destruct (sorts_for_performance code
                    (CodeAnalysisRequest.optimization_target request));
        simpl in Hin;
        repeat (destruct Hin as [Hin|Hin]; try discriminate Hin);
        contradiction.
Qed.

Lemma nested_loops_bring_loop_optimization_witness :
  exists report analysis,
    analyzeCodeComplexity
      (lit "2024-01-01")
      {| CodeAnalysisRequest.code := nested_loop_code;
         CodeAnalysisRequest.language := lit "javascript";
         CodeAnalysisRequest.optimization_target := lit "performance";
         CodeAnalysisRequest.include_patterns := Some false;
         CodeAnalysisRequest.include_complexity := None |}
      {| draws := 0 |}
    = ({| draws := 0 |}, Return (text_response report))
    /\ AnalysisReport.complexity_analysis report = Some analysis
    /\ (1 <= nested_loops analysis ->
        In loop_optimization
           (AnalysisReport.optimization_opportunities report))
    /\ (In loop_optimization
           (AnalysisReport.optimization_opportunities report) ->
        2 <= loop_count analysis).
Proof.
  apply (nested_loops_bring_loop_optimization
           (lit "2024-01-01")
           {| CodeAnalysisRequest.code := nested_loop_code;
              CodeAnalysisRequest.language := lit "javascript";
              CodeAnalysisRequest.optimization_target := lit "performance";
              CodeAnalysisRequest.include_patterns := Some false;
              CodeAnalysisRequest.include_complexity := None |}
           {| draws := 0 |}).
  simpl. discriminate.
Defined.

(** X21.  The analysis answers "O(1)" exactly when the code contains no loop
    header and does not contain both "return" and "("; in every other case
    without a nested loop it answers "O(n)". *)
Theorem constant_time_iff_no_indicator :
  forall (code language : jsstring),
    let r := performComplexityAnalysis code language in
    let returns_a_call :=
      includes code (lit "return") && includes code (lit "(") in
    (time_complexity r = O_1
     <-> ~ occurs_in loop_header code /\ returns_a_call = false)
    /\ (time_complexity r = O_n
        <-> ~ occurs_in nested_for_headers code
            /\ (occurs_in loop_header code \/ returns_a_call = true)).
Proof.
  intros code language r returns_a_call.
  destruct complexity_labels_differ as (Hn1 & H2n & H21).
  rewrite <- (occurs_in_iff _ _ code matches_loop_regex).
  rewrite <- (occurs_in_iff _ _ code matches_nested_regex).
  rewrite <- !match_count_positive.
  destruct (for_headers_between code) as [H1 H2].
  subst r. unfold performComplexityAnalysis. cbn [time_complexity].
  fold returns_a_call.
  set (loops := match_count loop_regex code) in *.
  set (nested := match_count nested_regex code) in *.
  assert (Hlt : forall n, (0 <? n) = true <-> 1 <= n)
    by (intros n; apply Nat.ltb_lt).
  assert (Hge : forall n, (0 <? n) = false <-> ~ 1 <= n)
    by (intros n; rewrite Nat.ltb_ge; lia).
  destruct (0 <? nested) eqn:En;
    [apply Hlt in En | apply Hge in En];
    (destruct (0 <? loops) eqn:El;
     [apply Hlt in El | apply Hge in El]);
    destruct returns_a_call; cbn [Nat.ltb Nat.leb];
    (split; (split; [intros H | intros [H H']]));
    first [ reflexivity | congruence | lia | tauto
          | symmetry in H; contradiction
          | destruct H' as [H'|H']; [lia | discriminate H'] ].
Qed.

(** ** The complexity analyzer: the rules, over the code *)

(** C3.  For every code string: [loop_count] and [nested_loops] are the
    numbers of matches of the two patterns in the code, positive exactly when
    a loop header, respectively two [for] headers with no closing brace
    between them, occur in it; [recursive_calls] is 1 when the code contains
    both "return" and "(" and 0 otherwise; [complexity_score] is
    [loop_count + 2 * nested_loops + recursive_calls]; [time_complexity] is
    "O(n²)" when nested headers occur, else "O(n)" when a loop header occurs,
    else "O(n)" when the recursion proxy holds, else "O(1)";
    [space_complexity] is "O(n)" exactly when nested headers occur and "O(1)"
    otherwise; code with no loop header and without the recursion proxy has
    score 0 and time complexity "O(1)". *)
Theorem complexity_analysis_rules :
  forall (code language : jsstring),
    let r := performComplexityAnalysis code language in
    let returns_a_call :=
      includes code (lit "return") && includes code (lit "(") in
    loop_count r = match_count loop_regex code
    /\ nested_loops r = match_count nested_regex code
    /\ (1 <= loop_count r <-> occurs_in loop_header code)
    /\ (1 <= nested_loops r <-> occurs_in nested_for_headers code)
    /\ recursive_calls r = (if returns_a_call then 1 else 0)
    /\ complexity_score r
       = loop_count r + 2 * nested_loops r + recursive_calls r
    /\ (occurs_in nested_for_headers code -> time_complexity r = O_n2)
    /\ (~ occurs_in nested_for_headers code -> occurs_in loop_header code ->
        time_complexity r = O_n)
    /\ (~ occurs_in nested_for_headers code -> ~ occurs_in loop_header code ->
        returns_a_call = true -> time_complexity r = O_n)
    /\ (~ occurs_in nested_for_headers code -> ~ occurs_in loop_header code ->
        returns_a_call = false -> time_complexity r = O_1)
    /\ (space_complexity r = O_n <-> occurs_in nested_for_headers code)
    /\ (space_complexity r = O_1 <-> ~ occurs_in nested_for_headers code)
    /\ (~ occurs_in loop_header code -> returns_a_call = false ->
        complexity_score r = 0 /\ time_complexity r = O_1).
Proof.
  intros code language r returns_a_call.
  destruct complexity_labels_differ as (Hn1 & _ & _).
  pose proof (match_count_positive loop_regex code) as Hloop.
  rewrite (occurs_in_iff _ _ code matches_loop_regex) in Hloop.
  pose proof (match_count_positive nested_regex code) as Hnest.
  rewrite (occurs_in_iff _ _ code matches_nested_regex) in Hnest.
  destruct (for_headers_between code) as [H1 H2].
  subst r. unfold performComplexityAnalysis.
  cbn [complexity_score loop_count nested_loops recursive_calls
       time_complexity space_complexity].
  fold returns_a_call.
  set (loops := match_count loop_regex code) in *.
  set (nested := match_count nested_regex code) in *.
  assert (Hn_yes : occurs_in nested_for_headers code -> (0 <? nested) = true).
  { intros H. apply Hnest in H. now apply Nat.ltb_lt. }
  assert (Hn_no : ~ occurs_in nested_for_headers code -> (0 <? nested) = false).
  { intros H. apply Nat.ltb_ge.
    destruct nested; [lia | exfalso; apply H, Hnest; lia]. }
  assert (Hl_yes : occurs_in loop_header code -> (0 <? loops) = true).
  { intros H. apply Hloop in H. now apply Nat.ltb_lt. }
  assert (Hl_zero : ~ occurs_in loop_header code -> loops = 0 /\ nested = 0).
  { intros H. assert (loops = 0)
      by (destruct loops; [reflexivity | exfalso; apply H, Hloop; lia]).
    lia. }
  split; [reflexivity|]. split; [reflexivity|].
  split; [exact Hloop|]. split; [exact Hnest|].
  split; [reflexivity|]. split; [lia|].
  split; [intros H; now rewrite (Hn_yes H)|].
  split; [intros Hn Hl; now rewrite (Hn_no Hn), (Hl_yes Hl)|].
  split.
  { intros Hn Hl ->. destruct (Hl_zero Hl) as [-> _].
    now rewrite (Hn_no Hn). }
  split.
  { intros Hn Hl ->. destruct (Hl_zero Hl) as [-> _].
    now rewrite (Hn_no Hn). }
  split.
  { split.
    - intros H. apply Hnest. destruct (0 <? nested) eqn:E.
      + now apply Nat.ltb_lt.
      + symmetry in H. contradiction.
    - intros H. now rewrite (Hn_yes H). }
  split.
  { split.
    - intros H Hocc. rewrite (Hn_yes Hocc) in H. contradiction.
    - intros H. now rewrite (Hn_no H). }
  intros Hl ->. destruct (Hl_zero Hl) as [-> ->]. split; reflexivity.
Qed.

Lemma complexity_analysis_rules_witness :
  time_complexity
    (performComplexityAnalysis nested_loop_code (lit "javascript")) = O_n2
  /\ complexity_score
       (performComplexityAnalysis (lit "let x = a + b;") (lit "javascript")) = 0
  /\ time_complexity
       (performComplexityAnalysis (lit "let x = a + b;") (lit "javascript"))
     = O_1.
Proof.
  split.
  - pose proof (complexity_analysis_rules nested_loop_code (lit "javascript"))
      as H.
    cbv zeta in H. destruct H as (_ & _ & _ & _ & _ & _ & Hnested & _).
    apply Hnested.
    exists [], (lit "for (;;) { for ("), (lit ";;) {} }").
    split; [reflexivity|].
    exists (lit "for ("), (lit ";;) { "), (lit "for (").
    split; [exists (lit " "); split; reflexivity|].
    split; [exists (lit " "); split; reflexivity|].
    split; reflexivity.
  - pose proof (complexity_analysis_rules (lit "let x = a + b;")
                                          (lit "javascript")) as H.
    cbv zeta in H.
    destruct H as (_ & _ & Hloop & _ & _ & _ & _ & _ & _ & _ & _ & _ & Hzero).
    apply Hzero; [|reflexivity].
    intros Hocc. apply Hloop in Hocc. vm_compute in Hocc. lia.
Defined.
